(** * The editor session of [App.tsx]: state, handlers and workflow properties

    The React component [App] keeps its whole session in [useState] cells and
    changes them only through its event handlers.  This development embeds
    the cells as one record, every handler as a function on that record, and
    the two asynchronous handlers ([handleCorrectCode], [handleChatSubmit])
    as a synchronous part that runs up to the [await] and a continuation
    that runs when the promise settles.  *)

From Stdlib Require Import List String Ascii Bool NArith ZArith Lia.
From Stdlib Require Import Floats.SpecFloat.
Import ListNotations.

Set Implicit Arguments.

(** ** JavaScript strings *)

Module JsString.

(** A JavaScript string is a sequence of UTF-16 code units. *)
Definition CodeUnit := N.
Definition t := list CodeUnit.

(** ASCII literals of the source, code unit by code unit. *)
Fixpoint js (s : string) : t :=
  match s with
  | EmptyString => []
  | String a rest => N_of_ascii a :: js rest
  end.

(** The quotation mark, written by its code so that literals stay plain. *)
Definition quote : t := [34%N].

Definition newline : t := [10%N].

(** ECMAScript WhiteSpace and LineTerminator code points, all of them in
    the basic plane: TAB, LF, VT, FF, CR, SP, NBSP, U+1680, U+2000..U+200A,
    U+2028, U+2029, U+202F, U+205F, U+3000, U+FEFF. *)
Definition isWhiteSpace (c : CodeUnit) : bool :=
  existsb (N.eqb c)
    [9; 10; 11; 12; 13; 32; 160; 5760; 8232; 8233; 8239; 8287; 12288; 65279]%N
  || ((8192 <=? c)%N && (c <=? 8202)%N).

Fixpoint trimStart (s : t) : t :=
  match s with
  | [] => []
  | c :: rest => if isWhiteSpace c then trimStart rest else s
  end.

Definition trimEnd (s : t) : t := rev (trimStart (rev s)).

(** [String.prototype.trim]. *)
Definition trim (s : t) : t := trimEnd (trimStart s).

(** Truthiness of a string value: every string but the empty one. *)
Definition truthy (s : t) : bool :=
  match s with
  | [] => false
  | _ :: _ => true
  end.

(** [Array.prototype.join] on an array of strings. *)
Fixpoint join (sep : t) (xs : list t) : t :=
  match xs with
  | [] => []
  | [x] => x
  | x :: rest => x ++ sep ++ join sep rest
  end.

(** [a === b] on strings. *)
Fixpoint eqb (a b : t) : bool :=
  match a, b with
  | [], [] => true
  | x :: a', y :: b' => N.eqb x y && eqb a' b'
  | _, _ => false
  end.

(** What the specification calls an empty or whitespace-only buffer. *)
Definition whitespaceOnly (s : t) : bool := forallb isWhiteSpace s.

End JsString.

Import JsString.
Definition jsstring : Type := JsString.t.

(** ** JavaScript numbers

    [dividerPosition], [clientX] and the fields of a [DOMRect] are IEEE 754
    binary64 values; the arithmetic of [handleMouseMove] is the one of
    [SpecFloat] at precision 53. *)

Module JsNumber.

Definition t := spec_float.

Definition prec : Z := 53.
Definition emax : Z := 1024.

(** An integer literal of the source. *)
Definition ofZ (z : Z) : t := binary_normalize prec emax z 0 false.

Definition sub (x y : t) : t := SFsub prec emax x y.
Definition div (x y : t) : t := SFdiv prec emax x y.
Definition mul (x y : t) : t := SFmul prec emax x y.
Definition add (x y : t) : t := SFadd prec emax x y.

(** The literal [1.5]. *)
Definition oneAndHalf : t := binary_normalize prec emax 3 (-1) false.

Definition isNaN (x : t) : bool :=
  match x with
  | S754_nan => true
  | _ => false
  end.

(** [Math.min] of two arguments: NaN if either is NaN, and -0 counts as
    smaller than +0. *)
Definition Math_min (a b : t) : t :=
  match SFcompare a b with
  | None => S754_nan
  | Some Lt => a
  | Some Gt => b
  | Some Eq => match a with S754_zero true => a | _ => b end
  end.

(** [Math.max] of two arguments: NaN if either is NaN, and +0 counts as
    larger than -0. *)
Definition Math_max (a b : t) : t :=
  match SFcompare a b with
  | None => S754_nan
  | Some Gt => a
  | Some Lt => b
  | Some Eq => match a with S754_zero false => a | _ => b end
  end.

(** [Number.isFinite]: neither NaN nor an infinity. *)
Definition isFinite (x : t) : bool :=
  match x with
  | S754_zero _ | S754_finite _ _ _ => true
  | _ => false
  end.

(** Either zero. *)
Definition isZero (x : t) : bool :=
  match x with
  | S754_zero _ => true
  | _ => false
  end.

(** The idiom [Math.max(lo, Math.min(hi, x))]. *)
Definition clamp (lo hi x : t) : t := Math_max lo (Math_min hi x).

(** [lo <= x <= hi] as the comparison of the language decides it. *)
Definition within (lo hi x : t) : bool := SFleb lo x && SFleb x hi.

End JsNumber.

Definition number : Type := JsNumber.t.

(** ** types.ts *)

(** [lineNumber] is a [number] that the response schema declares an
    integer. *)
Record Correction := mkCorrection {
  lineNumber : Z;
  original : jsstring;
  corrected : jsstring;
  isError : bool;
  explanation : jsstring
}.

(** A field of the parsed response is an array or is missing. *)
Record CorrectionResponse := mkCorrectionResponse {
  htmlCorrections : option (list Correction);
  cssCorrections : option (list Correction)
}.

(** ** The state cells of [App] *)

Record State := mkState {
  htmlCode : jsstring;
  cssCode : jsstring;
  htmlDiff : option (list Correction);
  cssDiff : option (list Correction);
  isLoading : bool;
  error : option jsstring;
  logs : list jsstring;
  isLogPanelExpanded : bool;
  isPreviewPanelExpanded : bool;
  isPreviewFullScreen : bool;
  isPreviewPinned : bool;
  chatQuery : jsstring;
  chatResponse : jsstring;
  isChatResponseVisible : bool;
  isChatLoading : bool;
  dividerPosition : number;
  isDragging : bool;
  isHtmlFocused : bool;
  isCssFocused : bool
}.

Definition initialHtml : jsstring :=
  js "<h1>Welcome to the Live Editor!</h1>" ++ newline ++
  js "<p>Change the HTML or CSS to see updates.</p>" ++ newline ++
  js "<button class=" ++ quote ++ js "btn" ++ quote ++ js ">Click Me</button>".

Definition initialCss : jsstring :=
  js "body {
  font-family: sans-serif;
  padding: 2em;
  color: #333;
}

.btn {
  background-color: #0284c7; /* A sky blue color */
  color: white;
  border: none;
  padding: 10px 20px;
  border-radius: 5px;
  cursor: pointer;
}

.btn:hover {
  background-color: #0369a1; /* A slightly darker sky blue */
}".

Definition initialState : State :=
  {| htmlCode := initialHtml;
     cssCode := initialCss;
     htmlDiff := None;
     cssDiff := None;
     isLoading := false;
     error := None;
     logs := [];
     isLogPanelExpanded := false;
     isPreviewPanelExpanded := false;
     isPreviewFullScreen := false;
     isPreviewPinned := false;
     chatQuery := [];
     chatResponse := [];
     isChatResponseVisible := false;
     isChatLoading := false;
     dividerPosition := JsNumber.ofZ 50;
     isDragging := false;
     isHtmlFocused := false;
     isCssFocused := false |}.

(** ** State setters

    A handler is a sequence of setter calls; [Update] is what such a
    sequence does to the cells, and [u1 ;; u2] runs [u1] and then [u2].
    JavaScript runs a handler, and the continuation of an [await], to its
    end before it takes the next event, so the states other handlers can
    see are the ones between such runs. *)

Definition Update := State -> State.

Definition skip : Update := fun s => s.

Definition seq (u1 u2 : Update) : Update := fun s => u2 (u1 s).

Declare Scope update_scope.
Delimit Scope update_scope with update.
Bind Scope update_scope with Update.
Notation "u1 ;; u2" := (seq u1 u2)
  (at level 61, left associativity) : update_scope.
Local Open Scope update_scope.

Definition setHtmlCode (v : jsstring) : Update := fun s =>
  let (_, a2, a3, a4, a5, a6, a7, a8, a9, a10, a11, a12, a13, a14, a15, a16, a17, a18, a19) := s in
  mkState v a2 a3 a4 a5 a6 a7 a8 a9 a10 a11 a12 a13 a14 a15 a16 a17 a18 a19.

Definition setCssCode (v : jsstring) : Update := fun s =>
  let (a1, _, a3, a4, a5, a6, a7, a8, a9, a10, a11, a12, a13, a14, a15, a16, a17, a18, a19) := s in
  mkState a1 v a3 a4 a5 a6 a7 a8 a9 a10 a11 a12 a13 a14 a15 a16 a17 a18 a19.

Definition setHtmlDiff (v : option (list Correction)) : Update := fun s =>
  let (a1, a2, _, a4, a5, a6, a7, a8, a9, a10, a11, a12, a13, a14, a15, a16, a17, a18, a19) := s in
  mkState a1 a2 v a4 a5 a6 a7 a8 a9 a10 a11 a12 a13 a14 a15 a16 a17 a18 a19.

Definition setCssDiff (v : option (list Correction)) : Update := fun s =>
  let (a1, a2, a3, _, a5, a6, a7, a8, a9, a10, a11, a12, a13, a14, a15, a16, a17, a18, a19) := s in
  mkState a1 a2 a3 v a5 a6 a7 a8 a9 a10 a11 a12 a13 a14 a15 a16 a17 a18 a19.

Definition setIsLoading (v : bool) : Update := fun s =>
  let (a1, a2, a3, a4, _, a6, a7, a8, a9, a10, a11, a12, a13, a14, a15, a16, a17, a18, a19) := s in
  mkState a1 a2 a3 a4 v a6 a7 a8 a9 a10 a11 a12 a13 a14 a15 a16 a17 a18 a19.

Definition setError (v : option jsstring) : Update := fun s =>
  let (a1, a2, a3, a4, a5, _, a7, a8, a9, a10, a11, a12, a13, a14, a15, a16, a17, a18, a19) := s in
  mkState a1 a2 a3 a4 a5 v a7 a8 a9 a10 a11 a12 a13 a14 a15 a16 a17 a18 a19.

(** [setLogs] is only ever called with an updater function. *)
Definition setLogs (f : list jsstring -> list jsstring) : Update := fun s =>
  let (a1, a2, a3, a4, a5, a6, a7, a8, a9, a10, a11, a12, a13, a14, a15, a16, a17, a18, a19) := s in
  mkState a1 a2 a3 a4 a5 a6 (f a7) a8 a9 a10 a11 a12 a13 a14 a15 a16 a17 a18 a19.

Definition setIsLogPanelExpanded (v : bool) : Update := fun s =>
  let (a1, a2, a3, a4, a5, a6, a7, _, a9, a10, a11, a12, a13, a14, a15, a16, a17, a18, a19) := s in
  mkState a1 a2 a3 a4 a5 a6 a7 v a9 a10 a11 a12 a13 a14 a15 a16 a17 a18 a19.

Definition setIsPreviewPanelExpanded (v : bool) : Update := fun s =>
  let (a1, a2, a3, a4, a5, a6, a7, a8, _, a10, a11, a12, a13, a14, a15, a16, a17, a18, a19) := s in
  mkState a1 a2 a3 a4 a5 a6 a7 a8 v a10 a11 a12 a13 a14 a15 a16 a17 a18 a19.

Definition setIsPreviewFullScreen (v : bool) : Update := fun s =>
  let (a1, a2, a3, a4, a5, a6, a7, a8, a9, _, a11, a12, a13, a14, a15, a16, a17, a18, a19) := s in
  mkState a1 a2 a3 a4 a5 a6 a7 a8 a9 v a11 a12 a13 a14 a15 a16 a17 a18 a19.

Definition setIsPreviewPinned (v : bool) : Update := fun s =>
  let (a1, a2, a3, a4, a5, a6, a7, a8, a9, a10, _, a12, a13, a14, a15, a16, a17, a18, a19) := s in
  mkState a1 a2 a3 a4 a5 a6 a7 a8 a9 a10 v a12 a13 a14 a15 a16 a17 a18 a19.

Definition setChatQuery (v : jsstring) : Update := fun s =>
  let (a1, a2, a3, a4, a5, a6, a7, a8, a9, a10, a11, _, a13, a14, a15, a16, a17, a18, a19) := s in
  mkState a1 a2 a3 a4 a5 a6 a7 a8 a9 a10 a11 v a13 a14 a15 a16 a17 a18 a19.

Definition setChatResponse (v : jsstring) : Update := fun s =>
  let (a1, a2, a3, a4, a5, a6, a7, a8, a9, a10, a11, a12, _, a14, a15, a16, a17, a18, a19) := s in
  mkState a1 a2 a3 a4 a5 a6 a7 a8 a9 a10 a11 a12 v a14 a15 a16 a17 a18 a19.

Definition setIsChatResponseVisible (v : bool) : Update := fun s =>
  let (a1, a2, a3, a4, a5, a6, a7, a8, a9, a10, a11, a12, a13, _, a15, a16, a17, a18, a19) := s in
  mkState a1 a2 a3 a4 a5 a6 a7 a8 a9 a10 a11 a12 a13 v a15 a16 a17 a18 a19.

Definition setIsChatLoading (v : bool) : Update := fun s =>
  let (a1, a2, a3, a4, a5, a6, a7, a8, a9, a10, a11, a12, a13, a14, _, a16, a17, a18, a19) := s in
  mkState a1 a2 a3 a4 a5 a6 a7 a8 a9 a10 a11 a12 a13 a14 v a16 a17 a18 a19.

Definition setDividerPosition (v : number) : Update := fun s =>
  let (a1, a2, a3, a4, a5, a6, a7, a8, a9, a10, a11, a12, a13, a14, a15, _, a17, a18, a19) := s in
  mkState a1 a2 a3 a4 a5 a6 a7 a8 a9 a10 a11 a12 a13 a14 a15 v a17 a18 a19.

Definition setIsDragging (v : bool) : Update := fun s =>
  let (a1, a2, a3, a4, a5, a6, a7, a8, a9, a10, a11, a12, a13, a14, a15, a16, _, a18, a19) := s in
  mkState a1 a2 a3 a4 a5 a6 a7 a8 a9 a10 a11 a12 a13 a14 a15 a16 v a18 a19.

Definition setIsHtmlFocused (v : bool) : Update := fun s =>
  let (a1, a2, a3, a4, a5, a6, a7, a8, a9, a10, a11, a12, a13, a14, a15, a16, a17, _, a19) := s in
  mkState a1 a2 a3 a4 a5 a6 a7 a8 a9 a10 a11 a12 a13 a14 a15 a16 a17 v a19.

Definition setIsCssFocused (v : bool) : Update := fun s =>
  let (a1, a2, a3, a4, a5, a6, a7, a8, a9, a10, a11, a12, a13, a14, a15, a16, a17, a18, _) := s in
  mkState a1 a2 a3 a4 a5 a6 a7 a8 a9 a10 a11 a12 a13 a14 a15 a16 a17 a18 v.

(** ** Log recorder

    [addLog] reads the wall clock; the reading is an input of the model. *)

Definition addLog (timestamp message : jsstring) : Update :=
  setLogs (fun prev => (js "[" ++ timestamp ++ js "] " ++ message) :: prev).

(** ** The collaborator (services/geminiService)

    The handlers only see a promise: it is fulfilled with a value or
    rejected with a thrown value, which is an [Error] carrying a message or
    something else. *)

Inductive Thrown :=
| ErrorInstance (message : jsstring)
| OtherValue.

Inductive Settled (A : Type) :=
| Fulfilled (value : A)
| Rejected (err : Thrown).

Arguments Fulfilled {A} value.
Arguments Rejected {A} err.

(** The outbound calls a handler can make. *)
Inductive Call :=
| correctCode (html css : jsstring)
| getChatResponse (html css query : jsstring).

(** ** Handlers

    A callback reads the cells of the render it was created in and writes
    through setters.  The first [State] argument of a handler below, when it
    has one, is that render; all the cells a callback reads are among its
    [useCallback] dependencies, so [dispatch] passes the current state.
    This takes React to have committed a render between two events, as it
    has between any two events a browser dispatches; two invocations of a
    callback within one task would both read the earlier render. *)

Definition Handler := State -> Update.

Definition dispatch (h : Handler) : Update := fun s => h s s.

Definition validationMessage : jsstring :=
  js "Please enter some HTML or CSS code to correct.".

Definition unexpectedResponseMessage : jsstring :=
  js "No corrections found or unexpected API response.".

Definition unknownErrorMessage : jsstring :=
  js "An unknown error occurred.".

(** [handleCorrectCode] up to its [await]: the update of the cells and the
    call it leaves pending, if any. *)
Definition handleCorrectCode_start (now : jsstring) (c : State)
  : Update * option Call :=
  if negb (truthy (trim (htmlCode c))) && negb (truthy (trim (cssCode c))) then
    (setError (Some validationMessage) ;;
     addLog now (js "Validation Error: " ++ validationMessage),
     None)
  else
    (addLog now (js "Correction process started...") ;;
     setIsLoading true ;;
     setError None ;;
     setHtmlDiff None ;;
     setCssDiff None,
     Some (correctCode (htmlCode c) (cssCode c))).

(** [handleCorrectCode] from the settlement of [correctCode] on: the [try]
    body after the [await], the [catch] clause, and the [finally] clause.
    [now1] and [now2] are the two clock readings. *)
Definition handleCorrectCode_settled (now1 now2 : jsstring)
    (r : Settled CorrectionResponse) : Update :=
  match r with
  | Fulfilled result =>
      match htmlCorrections result, cssCorrections result with
      | Some h, Some c =>
          setHtmlDiff (Some h) ;;
          setCssDiff (Some c) ;;
          addLog now1 (js "Correction successful. Diff generated.")
      | _, _ =>
          setError (Some unexpectedResponseMessage) ;;
          addLog now1 (js "API Warning: " ++ unexpectedResponseMessage)
      end
  | Rejected (ErrorInstance message) =>
      setError (Some message) ;;
      addLog now1 (js "API Error: " ++ message)
  | Rejected OtherValue =>
      setError (Some unknownErrorMessage) ;;
      addLog now1 (js "Error: " ++ unknownErrorMessage)
  end ;;
  setIsLoading false ;;
  addLog now2 (js "Correction process finished.").

Definition unknownChatErrorMessage : jsstring :=
  js "An unknown chat error occurred.".

(** [handleChatSubmit] up to its [await]. *)
Definition handleChatSubmit_start (now : jsstring) (c : State)
  : Update * option Call :=
  if negb (truthy (trim (chatQuery c))) || isChatLoading c then
    (skip, None)
  else
    (addLog now (js "Chat query submitted: " ++ quote ++ chatQuery c ++ quote) ;;
     setIsChatLoading true ;;
     setChatResponse [] ;;
     setIsChatResponseVisible true ;;
     setError None,
     Some (getChatResponse (htmlCode c) (cssCode c) (chatQuery c))).

(** [handleChatSubmit] from the settlement of [getChatResponse] on. *)
Definition handleChatSubmit_settled (now : jsstring) (r : Settled jsstring)
  : Update :=
  match r with
  | Fulfilled response =>
      setChatResponse response ;;
      addLog now (js "Chat response received.")
  | Rejected err =>
      let errorMessage :=
        match err with
        | ErrorInstance message => message
        | OtherValue => unknownChatErrorMessage
        end in
      setChatResponse (js "**Error:** " ++ errorMessage) ;;
      addLog now (js "Chat Error: " ++ errorMessage)
  end ;;
  setIsChatLoading false ;;
  setChatQuery [].

Definition correctedCode (diff : list Correction) : jsstring :=
  join newline (map corrected diff).

Definition handleAcceptCorrection (now : jsstring) : Handler := fun c =>
  match htmlDiff c with
  | Some diff => setHtmlCode (correctedCode diff)
  | None => skip
  end ;;
  match cssDiff c with
  | Some diff => setCssCode (correctedCode diff)
  | None => skip
  end ;;
  setHtmlDiff None ;;
  setCssDiff None ;;
  addLog now (js "Corrections accepted by user.").

Definition handleEditAgain (now : jsstring) : Update :=
  setHtmlDiff None ;;
  setCssDiff None ;;
  addLog now (js "User returned to edit mode.").

Definition handleMouseDown : Update := setIsDragging true.

Definition handleMouseUp : Update := setIsDragging false.

(** The two fields of [getBoundingClientRect()] the resizer reads. *)
Record DOMRect := mkDOMRect {
  left : number;
  width : number
}.

(** [current] is [editorContainerRef.current]: the rectangle of the mounted
    container, or nothing while the ref is null. *)
Definition handleMouseMove (clientX : number) (current : option DOMRect)
  : Handler := fun c =>
  match current with
  | Some rect =>
      if negb (isDragging c) then skip
      else
        let newX := JsNumber.sub clientX (left rect) in
        let newPosition := JsNumber.mul (JsNumber.div newX (width rect)) (JsNumber.ofZ 100) in
        let newPosition :=
          JsNumber.Math_max (JsNumber.ofZ 15)
            (JsNumber.Math_min (JsNumber.ofZ 85) newPosition) in
        setDividerPosition newPosition
  | None => skip
  end.

(** The updater passed to [setIsPreviewFullScreen] runs on the current
    value of the cell. *)
Definition handleTogglePreviewFullScreen : Update := fun s =>
  let prev := isPreviewFullScreen s in
  ((if prev then setIsPreviewPanelExpanded false else skip) ;;
   setIsPreviewFullScreen (negb prev)) s.

Definition handleTogglePinPreview : Handler := fun c =>
  (if isPreviewPinned c then setIsPreviewPanelExpanded false else skip) ;;
  (fun s => setIsPreviewPinned (negb (isPreviewPinned s)) s).

(** ** The view: what the rendered tree lets the user trigger *)

Definition present (A : Type) (v : option A) : bool :=
  match v with
  | Some _ => true
  | None => false
  end.

(** [disabled] of the correction button. *)
Definition correctButtonDisabled (s : State) : bool :=
  isLoading s || (present (htmlDiff s) && present (cssDiff s)).

Definition correctButtonEnabled (s : State) : bool :=
  negb (correctButtonDisabled s).

(** The button's [onClick]: a disabled button dispatches nothing. *)
Definition clickCorrect (now : jsstring) (s : State) : State * option Call :=
  if correctButtonDisabled s then (s, None)
  else let (u, call) := handleCorrectCode_start now s in (u s, call).

(** The form's [onSubmit]. *)
Definition submitChat (now : jsstring) (s : State) : State * option Call :=
  let (u, call) := handleChatSubmit_start now s in (u s, call).

(** The "Edit Again" and "Accept All Corrections" buttons are rendered. *)
Definition reviewButtonsShown (s : State) : bool :=
  present (htmlDiff s) && present (cssDiff s) && negb (isLoading s).

(** [CodeView] renders an enabled textarea. *)
Definition textareaEditable (A : Type) (diff : option A) (loading : bool) : bool :=
  negb (present diff) && negb loading.

Definition isPreviewEffectivelyExpanded (s : State) : bool :=
  isPreviewPanelExpanded s || isPreviewPinned s.

(** The preview panel has hover listeners. *)
Definition previewHoverListens (s : State) : bool :=
  negb (isPreviewPinned s) && negb (isPreviewFullScreen s).

(** ** Sessions: the cells together with the calls still in flight *)

(** What can happen to the component, by the prop or listener it arrives
    through:
    - [HtmlChange], [CssChange], the focus and blur events: the textarea of
      the HTML and of the CSS [CodeView];
    - [QueryChange], [ChatSubmit]: the input and the form of [ChatBar];
    - [CorrectClick], [AcceptClick], [EditAgainClick], [PinClick],
      [FullScreenClick]: the [onClick] of the buttons;
    - [CorrectCodeSettles], [ChatResponseSettles]: the promise a handler
      awaits settles, and the handler resumes;
    - [DividerMouseDown]: the divider; [DocumentMouseUp],
      [DocumentMouseMove]: the listeners the drag effect puts on [document];
    - the enter and leave events of the preview and log panels;
    - [PopupClose]: [onClose] of [ChatResponsePopup].
    Clock readings and promise outcomes come with the event. *)
Inductive Event :=
| HtmlChange (value : jsstring)
| CssChange (value : jsstring)
| HtmlFocus
| HtmlBlur
| CssFocus
| CssBlur
| QueryChange (value : jsstring)
| CorrectClick (now : jsstring)
| CorrectCodeSettles (now1 now2 : jsstring) (r : Settled CorrectionResponse)
| ChatSubmit (now : jsstring)
| ChatResponseSettles (now : jsstring) (r : Settled jsstring)
| AcceptClick (now : jsstring)
| EditAgainClick (now : jsstring)
| DividerMouseDown
| DocumentMouseUp
| DocumentMouseMove (clientX : number) (current : option DOMRect)
| PreviewMouseEnter
| PreviewMouseLeave
| LogMouseEnter
| LogMouseLeave
| PinClick
| FullScreenClick
| PopupClose.

Record Session := mkSession {
  cells : State;
  correctionsPending : nat;
  chatsPending : nat
}.

Definition initialSession : Session :=
  {| cells := initialState; correctionsPending := 0; chatsPending := 0 |}.

Definition issued (call : option Call) : nat :=
  match call with
  | Some _ => 1
  | None => 0
  end.

(** What the handler wired to an event does, whether or not the view
    currently offers the event. *)
Definition react (e : Event) (w : Session) : Session :=
  let s := cells w in
  let same (u : Update) := mkSession (u s) (correctionsPending w) (chatsPending w) in
  match e with
  | HtmlChange v => same (setHtmlCode v)
  | CssChange v => same (setCssCode v)
  | HtmlFocus => same (setIsHtmlFocused true)
  | HtmlBlur => same (setIsHtmlFocused false)
  | CssFocus => same (setIsCssFocused true)
  | CssBlur => same (setIsCssFocused false)
  | QueryChange v => same (setChatQuery v)
  | CorrectClick now =>
      let (u, call) := handleCorrectCode_start now s in
      mkSession (u s) (issued call + correctionsPending w) (chatsPending w)
  | CorrectCodeSettles now1 now2 r =>
      mkSession (handleCorrectCode_settled now1 now2 r s)
        (pred (correctionsPending w)) (chatsPending w)
  | ChatSubmit now =>
      let (u, call) := handleChatSubmit_start now s in
      mkSession (u s) (correctionsPending w) (issued call + chatsPending w)
  | ChatResponseSettles now r =>
      mkSession (handleChatSubmit_settled now r s)
        (correctionsPending w) (pred (chatsPending w))
  | AcceptClick now => same (dispatch (handleAcceptCorrection now))
  | EditAgainClick now => same (handleEditAgain now)
  | DividerMouseDown => same handleMouseDown
  | DocumentMouseUp => same handleMouseUp
  | DocumentMouseMove clientX current => same (dispatch (handleMouseMove clientX current))
  | PreviewMouseEnter => same (setIsPreviewPanelExpanded true)
  | PreviewMouseLeave => same (setIsPreviewPanelExpanded false)
  | LogMouseEnter => same (setIsLogPanelExpanded true)
  | LogMouseLeave => same (setIsLogPanelExpanded false)
  | PinClick => same (dispatch handleTogglePinPreview)
  | FullScreenClick => same handleTogglePreviewFullScreen
  | PopupClose => same (setIsChatResponseVisible false)
  end.

(** Whether the rendered tree offers the event: disabled and unrendered
    controls fire nothing, the document listeners exist only during a drag,
    and a call settles only if it was made. *)
Definition offered (e : Event) (w : Session) : bool :=
  let s := cells w in
  match e with
  | HtmlChange _ => textareaEditable (htmlDiff s) (isLoading s)
  | CssChange _ => textareaEditable (cssDiff s) (isLoading s)
  | QueryChange _ => negb (isChatLoading s)
  | CorrectClick _ => correctButtonEnabled s
  | CorrectCodeSettles _ _ _ => negb (Nat.eqb (correctionsPending w) 0)
  | ChatResponseSettles _ _ => negb (Nat.eqb (chatsPending w) 0)
  | AcceptClick _ | EditAgainClick _ => reviewButtonsShown s
  | DocumentMouseUp | DocumentMouseMove _ _ => isDragging s
  | PreviewMouseEnter | PreviewMouseLeave => previewHoverListens s
  | PopupClose => isChatResponseVisible s
  | HtmlFocus | HtmlBlur | CssFocus | CssBlur | ChatSubmit _
  | DividerMouseDown | LogMouseEnter | LogMouseLeave
  | PinClick | FullScreenClick => true
  end.

Definition step (e : Event) (w : Session) : option Session :=
  if offered e w then Some (react e w) else None.

(** A session of the application as the user can drive it. *)
Fixpoint run (events : list Event) (w : Session) : option Session :=
  match events with
  | [] => Some w
  | e :: rest =>
      match step e w with
      | Some w' => run rest w'
      | None => None
      end
  end.

(** Any sequence of handler invocations, offered or not. *)
Fixpoint play (events : list Event) (w : Session) : Session :=
  match events with
  | [] => w
  | e :: rest => play rest (react e w)
  end.

(** The correction workflow is [Requesting] exactly while its one call is
    in flight, and holds no correction sequence meanwhile. *)
Definition requestConsistent (w : Session) : Prop :=
  (correctionsPending w = 0 /\ isLoading (cells w) = false) \/
  (correctionsPending w = 1 /\ isLoading (cells w) = true /\
   htmlDiff (cells w) = None /\ cssDiff (cells w) = None).

Definition isCorrectClick (e : Event) : bool :=
  match e with
  | CorrectClick _ => true
  | _ => false
  end.

(** The events whose handlers call [setHtmlCode] or [setCssCode]. *)
Definition writesBuffers (e : Event) : bool :=
  match e with
  | HtmlChange _ | CssChange _ | AcceptClick _ => true
  | _ => false
  end.

(** After a request made on the buffers [html] and [css]: either they are
    still the session's buffers, or no call is in flight and no review is
    on screen (so none can come up without a new request). *)
Definition awaitingReview (html css : jsstring) (w : Session) : Prop :=
  (htmlCode (cells w) = html /\ cssCode (cells w) = css /\
   requestConsistent w) \/
  (correctionsPending w = 0 /\
   present (htmlDiff (cells w)) && present (cssDiff (cells w)) = false).

(** Both correction sequences are there or neither is. *)
Definition paired (s : State) : bool :=
  Bool.eqb (present (htmlDiff s)) (present (cssDiff s)).

(** ** The specification's reading of "accept"

    The specification words the accepted text as the join of the corrected
    lines taken in ascending [lineNumber] order. *)

Fixpoint insertByLineNumber (c : Correction) (l : list Correction)
  : list Correction :=
  match l with
  | [] => [c]
  | d :: rest =>
      if (lineNumber c <=? lineNumber d)%Z then c :: l
      else d :: insertByLineNumber c rest
  end.

Fixpoint sortByLineNumber (l : list Correction) : list Correction :=
  match l with
  | [] => []
  | c :: rest => insertByLineNumber c (sortByLineNumber rest)
  end.

Definition joinedInLineNumberOrder (diff : list Correction) : jsstring :=
  join newline (map corrected (sortByLineNumber diff)).

(** The sequence already lists its lines in ascending [lineNumber] order. *)
Fixpoint ascending (l : list Correction) : bool :=
  match l with
  | [] => true
  | c :: rest =>
      match rest with
      | [] => true
      | d :: _ => (lineNumber c <=? lineNumber d)%Z && ascending rest
      end
  end.

(** The split position respects the design bounds. *)
Definition splitInBounds (p : number) : bool :=
  JsNumber.within (JsNumber.ofZ 15) (JsNumber.ofZ 85) p.

(** ** services/geminiService

    Both functions build a prompt from their arguments and hand it to the
    API client; what comes back does not depend on this code.  The model
    takes the environment as input: the API key, and how the [try] block
    fares up to the value the guards look at. *)

Module geminiService.

(** A property of the parsed JSON as [Array.isArray] sees it. *)
Inductive Field :=
| IsArray (items : list Correction)
| NotArray.

(** [JSON.parse(jsonText)] as the guard of [correctCode] sees it: a falsy
    value, or a truthy one with its two properties. *)
Inductive Parsed :=
| Falsy
| Truthy (html css : Field).

(** [!process.env.API_KEY]: unset or the empty string. *)
Definition apiKeyMissing (API_KEY : option jsstring) : bool :=
  match API_KEY with
  | Some key => negb (truthy key)
  | None => true
  end.

Definition apiKeyMessage : jsstring :=
  js "API_KEY environment variable not set".

Definition invalidFormatMessage : jsstring :=
  js "Invalid JSON response format from API. Expected 'htmlCorrections' and 'cssCorrections' arrays.".

(** [parsedJson] is the [try] block up to [JSON.parse]: the parsed value, or
    whatever the client, [response.text.trim()] or [JSON.parse] threw. *)
Definition correctCode (API_KEY : option jsstring) (parsedJson : Settled Parsed)
  : Settled CorrectionResponse :=
  if apiKeyMissing API_KEY then Rejected (ErrorInstance apiKeyMessage)
  else
    let attempt :=
      match parsedJson with
      | Fulfilled (Truthy (IsArray h) (IsArray c)) =>
          Fulfilled {| htmlCorrections := Some h; cssCorrections := Some c |}
      | Fulfilled _ => Rejected (ErrorInstance invalidFormatMessage)
      | Rejected err => Rejected err
      end in
    match attempt with
    | Fulfilled result => Fulfilled result
    | Rejected (ErrorInstance message) =>
        Rejected (ErrorInstance (js "Failed to correct code: " ++ message))
    | Rejected OtherValue =>
        Rejected (ErrorInstance (js "An unknown error occurred while correcting code."))
    end.

(** [text] is the [try] block up to [response.text]. *)
Definition getChatResponse (API_KEY : option jsstring) (text : Settled jsstring)
  : Settled jsstring :=
  if apiKeyMissing API_KEY then Rejected (ErrorInstance apiKeyMessage)
  else
    match text with
    | Fulfilled answer => Fulfilled answer
    | Rejected (ErrorInstance message) =>
        Rejected (ErrorInstance (js "Failed to get chat response: " ++ message))
    | Rejected OtherValue =>
        Rejected (ErrorInstance (js "An unknown error occurred during chat."))
    end.

End geminiService.

(** ** components/ChatBar *)

Module ChatBar.

(** [s.split(/\s+/)]: the pieces between maximal runs of white space, the
    empty pieces at either end included.  [word] is the piece being read
    and [inSeparator] tells that the last unit read was white space. *)
Fixpoint splitWhiteSpace (inSeparator : bool) (s word : jsstring)
  : list jsstring :=
  match s with
  | [] => [word]
  | c :: rest =>
      if isWhiteSpace c then
        if inSeparator then splitWhiteSpace true rest []
        else word :: splitWhiteSpace true rest []
      else splitWhiteSpace false rest (word ++ [c])
  end.

(** [query.trim().split(/\s+/).filter(Boolean).length]. *)
Definition wordCount (query : jsstring) : nat :=
  List.length (filter truthy (splitWhiteSpace false (trim query) [])).

Definition baseSpread : number := JsNumber.ofZ 2.
Definition baseBlur : number := JsNumber.ofZ 8.

(** The two numbers the effect formats into [glowVars]. *)
Definition spread (query : jsstring) : number :=
  JsNumber.Math_min
    (JsNumber.add baseSpread
       (JsNumber.mul (JsNumber.ofZ (Z.of_nat (wordCount query))) JsNumber.oneAndHalf))
    (JsNumber.ofZ 15).

Definition blur (query : jsstring) : number :=
  JsNumber.Math_min
    (JsNumber.add baseBlur
       (JsNumber.mul (JsNumber.ofZ (Z.of_nat (wordCount query))) (JsNumber.ofZ 2)))
    (JsNumber.ofZ 30).

(** [disabled] of the input and of the send button. *)
Definition inputDisabled (isLoading : bool) : bool := isLoading.

Definition sendDisabled (query : jsstring) (isLoading : bool) : bool :=
  isLoading || negb (truthy (trim query)).

End ChatBar.

(** ** components/CodeView

    The rendered tree, without its class names. *)

Module CodeView.

Inductive Row :=
| Removed (lineNumber : Z) (text : jsstring)
| Added (text : jsstring)
| Explanation (text : jsstring)
| Unchanged (lineNumber : Z) (text : jsstring).

Definition DiffLine (line : Correction) : list Row :=
  if isError line then
    [ Removed (lineNumber line) (original line);
      Added (corrected line);
      Explanation (explanation line) ]
  else
    [ Unchanged (lineNumber line) (original line) ].

Inductive Tree :=
| Diff (lines : list (list Row))
| Textarea (value placeholder : jsstring) (disabled : bool).

Definition CodeView (code : jsstring) (diff : option (list Correction))
    (isLoading : bool) (placeholder : jsstring) : Tree :=
  match diff with
  | Some lines => Diff (map DiffLine lines)
  | None => Textarea code placeholder isLoading
  end.

(** The text a row offers as the line's new content: the added text of a
    corrected line, the text of an unchanged one. *)
Definition kept (row : Row) : option jsstring :=
  match row with
  | Added text | Unchanged _ text => Some text
  | Removed _ _ | Explanation _ => None
  end.

Fixpoint keptTexts (rows : list Row) : list jsstring :=
  match rows with
  | [] => []
  | row :: rest =>
      match kept row with
      | Some text => text :: keptTexts rest
      | None => keptTexts rest
      end
  end.

(** The file as the diff view presents it after correction. *)
Definition shownResult (tree : Tree) : option jsstring :=
  match tree with
  | Diff lines => Some (join newline (keptTexts (List.concat lines)))
  | Textarea _ _ _ => None
  end.

(** The pane is a textarea the user can type in. *)
Definition editable (tree : Tree) : bool :=
  match tree with
  | Textarea _ _ disabled => negb disabled
  | Diff _ => false
  end.

(** No line changes behind an unflagged entry. *)
Definition flagsEveryChange (diff : list Correction) : bool :=
  forallb (fun line => isError line || JsString.eqb (corrected line) (original line)) diff.

End CodeView.

(** The two panes and the chat bar as [App] renders them. *)
Definition htmlPane (s : State) : CodeView.Tree :=
  CodeView.CodeView (htmlCode s) (htmlDiff s) (isLoading s) (js "HTML CODE").

Definition cssPane (s : State) : CodeView.Tree :=
  CodeView.CodeView (cssCode s) (cssDiff s) (isLoading s) (js "CSS CODE").

Definition sendDisabled (s : State) : bool :=
  ChatBar.sendDisabled (chatQuery s) (isChatLoading s).

(** ** Session predicates *)

(** No error banner while a request is out or a review is on screen. *)
Definition bannerClear (s : State) : Prop :=
  isLoading s = true \/ present (htmlDiff s) && present (cssDiff s) = true ->
  error s = None.

(** One chat call in flight exactly while the chat is loading. *)
Definition chatConsistent (w : Session) : Prop :=
  chatsPending w = if isChatLoading (cells w) then 1 else 0.

(** A pointer move whose coordinates are finite and which is not a zero
    offset over a zero width; every other event passes. *)
Definition numericMove (e : Event) : bool :=
  match e with
  | DocumentMouseMove clientX (Some rect) =>
      JsNumber.isFinite clientX && JsNumber.isFinite (left rect)
      && JsNumber.isFinite (width rect)
      && negb (JsNumber.isZero (width rect)
               && JsNumber.isZero (JsNumber.sub clientX (left rect)))
  | _ => true
  end.

(** An event that reaches [handleMouseMove] with a mounted container. *)
Definition isPointerMove (e : Event) : bool :=
  match e with
  | DocumentMouseMove _ (Some _) => true
  | _ => false
  end.

(** ** Concrete sessions used to exercise the handlers *)

Module Examples.

Definition noon : jsstring := js "12:00:00 PM".

(** The one-line review of the specification's scenario. *)
Definition capitalize : Correction :=
  {| lineNumber := 1;
     original := js "<p>hi</p>";
     corrected := js "<p>Hi</p>";
     isError := true;
     explanation := js "Capitalize" |}.

Definition hiEvents : list Event :=
  [ HtmlChange (js "<p>hi</p>");
    CssChange [];
    CorrectClick noon;
    CorrectCodeSettles noon noon
      (Fulfilled {| htmlCorrections := Some [capitalize];
                    cssCorrections := Some [] |}) ].

Definition reviewingHi : State := cells (play hiEvents initialSession).

(** A response whose array does not list its lines in order. *)
Definition lineTwo : Correction :=
  {| lineNumber := 2; original := js "b"; corrected := js "b";
     isError := false; explanation := [] |}.

Definition lineOne : Correction :=
  {| lineNumber := 1; original := js "a"; corrected := js "a";
     isError := false; explanation := [] |}.

Definition swapped : list Correction := [lineTwo; lineOne].

Definition reviewingSwapped : State :=
  cells (play
    [ CorrectClick noon;
      CorrectCodeSettles noon noon
        (Fulfilled {| htmlCorrections := Some swapped;
                      cssCorrections := Some [] |}) ]
    initialSession).

(** Both buffers hold nothing but white space. *)
Definition blankBuffers : State :=
  (setHtmlCode (js "  " ++ newline) ;; setCssCode []) initialState.

(** A drag is armed. *)
Definition dragging : State := handleMouseDown initialState.

(** The editor container has collapsed to zero width with its left edge
    72 pixels into the viewport. *)
Definition collapsed : DOMRect :=
  {| left := JsNumber.ofZ 72; width := JsNumber.ofZ 0 |}.

Definition thousandWide : DOMRect :=
  {| left := JsNumber.ofZ 0; width := JsNumber.ofZ 1000 |}.

(** A failed correction has left its message in the banner and the user
    has typed a question. *)
Definition failure : Thrown :=
  ErrorInstance (js "Failed to correct code: quota exceeded").

Definition bannerEvents : list Event :=
  [ CorrectClick noon;
    CorrectCodeSettles noon noon (Rejected failure);
    QueryChange (js "why?") ].

Definition bannerShown : State := cells (play bannerEvents initialSession).

(** A chat request is in flight and the user has typed again. *)
Definition chatPending : State :=
  setChatQuery (js "and now?") (fst (submitChat noon bannerShown)).

(** A correction call is in flight, and then fails. *)
Definition requesting : Session := play [CorrectClick noon] initialSession.

Definition failed : State :=
  cells (react (CorrectCodeSettles noon noon (Rejected failure)) requesting).

(** The pointer sits on the left edge of the collapsed container. *)
Definition movedOverCollapsed : State :=
  dispatch (handleMouseMove (JsNumber.ofZ 72) (Some collapsed)) dragging.

(** The pointer goes from x=0 to x=1000 over the 1000-wide container. *)
Definition movedToZero : State :=
  dispatch (handleMouseMove (JsNumber.ofZ 0) (Some thousandWide)) dragging.

Definition movedToThousand : State :=
  dispatch (handleMouseMove (JsNumber.ofZ 1000) (Some thousandWide)) movedToZero.

(** While the correction call is out the user chats and pins the preview;
    both calls come back. *)
Definition reviewedMeanwhile : list Event :=
  [ QueryChange (js "why?");
    ChatSubmit noon;
    PinClick;
    CorrectCodeSettles noon noon
      (Fulfilled {| htmlCorrections := Some [capitalize];
                    cssCorrections := Some [] |});
    ChatResponseSettles noon (Fulfilled (js "Because.")) ].

(** The preview is hovered open, pinned and full screen. *)
Definition previewOpen : State :=
  (setIsPreviewPanelExpanded true ;;
   setIsPreviewPinned true ;;
   setIsPreviewFullScreen true) initialState.

End Examples.

Module MoreExamples.
Import Examples.

(** A failed request, then a new one. *)
Definition retryEvents : list Event :=
  [ CorrectClick noon;
    CorrectCodeSettles noon noon (Rejected failure);
    CorrectClick noon ].

Definition retrying : Session := play retryEvents initialSession.

Definition reviewing : Session := play hiEvents initialSession.

(** Everything but typing in the panes and accepting. *)
Definition busyEvents : list Event :=
  [ CorrectClick noon;
    QueryChange (js "why?");
    ChatSubmit noon;
    DividerMouseDown;
    DocumentMouseMove (JsNumber.ofZ 300) (Some thousandWide);
    DocumentMouseUp;
    CorrectCodeSettles noon noon
      (Fulfilled {| htmlCorrections := Some [capitalize];
                    cssCorrections := Some [] |});
    ChatResponseSettles noon (Rejected OtherValue);
    EditAgainClick noon ].

(** A response with its CSS array missing. *)
Definition halfResponse : CorrectionResponse :=
  {| htmlCorrections := Some [capitalize]; cssCorrections := None |}.

(** A line changed without being flagged. *)
Definition silent : Correction :=
  {| lineNumber := 1; original := js "<p>hi</p>"; corrected := js "<p>bye</p>";
     isError := false; explanation := [] |}.

(** The form is submitted again, after a render, while its call is out. *)
Definition twoSubmits : list Event :=
  [ QueryChange (js "why?"); ChatSubmit noon; ChatSubmit noon ].

(** The user asks, closes the popup and requests a correction before the
    answer arrives. *)
Definition answeredLate : list Event :=
  [ QueryChange (js "why?");
    ChatSubmit noon;
    PopupClose;
    CorrectClick noon;
    ChatResponseSettles noon (Fulfilled (js "Because.")) ].

(** The user has typed a question and nothing is pending. *)
Definition asking : State := setChatQuery (js "why is it blue?") initialState.

End MoreExamples.

(** * Properties *)

(** ** Strings *)

Module JsStringFacts.

Lemma trimStart_nil (s : jsstring) :
  trimStart s = [] <-> whitespaceOnly s = true.
Proof.
  unfold whitespaceOnly.
  induction s as [|c rest IH]; simpl.
  - tauto.
  - destruct (isWhiteSpace c); simpl.
    + exact IH.
    + split; discriminate.
Qed.

Lemma whitespaceOnly_rev (s : jsstring) :
  whitespaceOnly (rev s) = whitespaceOnly s.
Proof.
  unfold whitespaceOnly.
  induction s as [|c rest IH]; simpl.
  - reflexivity.
  - rewrite forallb_app, IH. simpl.
    rewrite andb_true_r. apply andb_comm.
Qed.

Lemma trimStart_head (s : jsstring) c rest :
  trimStart s = c :: rest -> isWhiteSpace c = false.
Proof.
  induction s as [|d s' IH]; simpl.
  - discriminate.
  - destruct (isWhiteSpace d) eqn:Hd.
    + exact IH.
    + intros H. injection H as -> _. exact Hd.
Qed.

Lemma truthy_nil (s : jsstring) : truthy s = false <-> s = [].
Proof. destruct s; simpl; split; congruence. Qed.

(** [!s.trim()] holds exactly for the empty and whitespace-only strings. *)
Lemma truthy_trim (s : jsstring) :
  truthy (trim s) = negb (whitespaceOnly s).
Proof.
  unfold trim, trimEnd.
  destruct (whitespaceOnly s) eqn:Hs; simpl.
  - apply trimStart_nil in Hs. rewrite Hs. reflexivity.
  - destruct (trimStart s) as [|c rest] eqn:Ht.
    + apply trimStart_nil in Ht. congruence.
    + apply trimStart_head in Ht.
      destruct (trimStart (rev (c :: rest))) as [|d kept] eqn:Hr.
      * apply trimStart_nil in Hr. rewrite whitespaceOnly_rev in Hr.
        unfold whitespaceOnly in Hr. simpl in Hr.
        rewrite Ht in Hr. discriminate.
      * simpl (rev (d :: kept)). destruct (rev kept); reflexivity.
Qed.

End JsStringFacts.

Module JsNumberFacts.
Import JsNumber.

Lemma SFcompare_antisym (x y : number) :
  SFcompare y x = option_map CompOpp (SFcompare x y).
Proof.
  destruct x as [sx|sx| |sx mx ex], y as [sy|sy| |sy my ey]; simpl;
    try reflexivity;
    try (destruct sx; reflexivity);
    try (destruct sy; reflexivity);
    try (destruct sx, sy; reflexivity).
  destruct sx, sy; try reflexivity;
    rewrite (Z.compare_antisym ey ex);
    destruct (ey ?= ex)%Z; cbn [CompOpp option_map]; try reflexivity;
    rewrite (Pos.compare_cont_antisym mx my Eq); reflexivity.
Qed.

Lemma SFcompare_unordered (x y : number) :
  SFcompare x y = None -> isNaN x = true \/ isNaN y = true.
Proof.
  destruct x as [sx|sx| |sx mx ex], y as [sy|sy| |sy my ey]; simpl;
    intros H; try discriminate H; auto.
Qed.

Section Clamp.
Variables lo hi : number.
Hypothesis lo_finite : exists s m e, lo = S754_finite s m e.
Hypothesis hi_finite : exists s m e, hi = S754_finite s m e.
Hypothesis lo_lo : SFcompare lo lo = Some Eq.
Hypothesis hi_hi : SFcompare hi hi = Some Eq.
Hypothesis lo_hi : SFcompare lo hi = Some Lt.

Lemma clamp_is_NaN (x : number) :
  isNaN x = true -> clamp lo hi x = S754_nan.
Proof.
  destruct x; try discriminate. intros _.
  unfold clamp, Math_min, Math_max.
  destruct hi_finite as (s & m & e & ->).
  destruct lo_finite as (s' & m' & e' & ->).
  reflexivity.
Qed.

Lemma clamp_within (x : number) :
  isNaN x = false -> within lo hi (clamp lo hi x) = true.
Proof.
  intros Hx.
  assert (Hmin : Math_min hi x = hi /\ SFcompare hi x = Some Lt
                 \/ Math_min hi x = x /\ SFleb x hi = true).
  { unfold Math_min, SFleb. rewrite (SFcompare_antisym hi x).
    destruct (SFcompare hi x) as [[| |]|] eqn:Hc; simpl; auto.
    - right. destruct hi_finite as (s & m & e & ->). auto.
    - apply SFcompare_unordered in Hc.
      destruct hi_finite as (s & m & e & ->). simpl in Hc.
      destruct Hc; congruence. }
  unfold clamp.
  destruct Hmin as [[-> _] | [-> Hle]].
  - unfold Math_max, within, SFleb. rewrite lo_hi. simpl.
    rewrite lo_hi, hi_hi. reflexivity.
  - unfold Math_max, within, SFleb.
    destruct (SFcompare lo x) as [[| |]|] eqn:Hc.
    + destruct lo_finite as (s & m & e & ->). rewrite Hc. exact Hle.
    + rewrite Hc. exact Hle.
    + rewrite lo_lo, lo_hi. reflexivity.
    + apply SFcompare_unordered in Hc.
      destruct lo_finite as (s & m & e & ->). simpl in Hc.
      destruct Hc; congruence.
Qed.
End Clamp.

(** *** Where NaN can come from

    Rounding a non-negative mantissa never yields NaN, so among finite
    operands only 0/0 does. *)

Lemma shr_1_nonneg (mrs : shr_record) :
  (0 <= shr_m mrs)%Z -> (0 <= shr_m (shr_1 mrs))%Z.
Proof.
  destruct mrs as [m r s]. destruct m as [|p|p]; simpl; intros H;
    try destruct p; simpl; lia.
Qed.

Lemma iter_shr_1_nonneg (p : positive) (mrs : shr_record) :
  (0 <= shr_m mrs)%Z -> (0 <= shr_m (iter_pos shr_1 p mrs))%Z.
Proof.
  revert mrs. induction p as [p IH|p IH|]; simpl; intros mrs H.
  - apply IH, IH, shr_1_nonneg, H.
  - apply IH, IH, H.
  - apply shr_1_nonneg, H.
Qed.

Lemma shr_fexp_nonneg (m e : Z) (l : location) :
  (0 <= m)%Z -> (0 <= shr_m (fst (shr_fexp prec emax m e l)))%Z.
Proof.
  intros H. unfold shr_fexp, shr.
  assert (Hrec : (0 <= shr_m (shr_record_of_loc m l))%Z)
    by (destruct l as [|[| |]]; exact H).
  destruct (fexp prec emax (Zdigits2 m + e) - e)%Z; simpl;
    auto using iter_shr_1_nonneg.
Qed.

Lemma round_nearest_even_nonneg (m : Z) (l : location) :
  (0 <= m)%Z -> (0 <= round_nearest_even m l)%Z.
Proof.
  intros H. destruct l as [|[| |]]; simpl; try destruct (Z.even m); lia.
Qed.

Lemma binary_round_aux_number (s : bool) (m e : Z) (l : location) :
  (0 <= m)%Z -> isNaN (binary_round_aux prec emax s m e l) = false.
Proof.
  intros H. unfold binary_round_aux.
  pose proof (shr_fexp_nonneg e l H) as H1.
  destruct (shr_fexp prec emax m e l) as [mrs' e'].
  pose proof (shr_fexp_nonneg e' loc_Exact
                (round_nearest_even_nonneg (loc_of_shr_record mrs') H1)) as H2.
  destruct (shr_fexp prec emax _ e' loc_Exact) as [mrs'' e''].
  simpl in H2. destruct (shr_m mrs'') as [|q|q].
  - reflexivity.
  - destruct (e'' <=? emax - prec)%Z; reflexivity.
  - lia.
Qed.

Lemma binary_normalize_number (m e : Z) (szero : bool) :
  isNaN (binary_normalize prec emax m e szero) = false.
Proof.
  destruct m as [|q|q]; simpl; [reflexivity| |];
    unfold binary_round;
    destruct (shl_align _ _ _) as [mz ez];
    apply binary_round_aux_number; lia.
Qed.

Lemma sub_number (x y : number) :
  isFinite x = true -> isFinite y = true -> isNaN (sub x y) = false.
Proof.
  destruct x as [sx| | |sx mx ex], y as [sy| | |sy my ey];
    try discriminate; intros _ _; unfold sub, SFsub.
  - destruct sx, sy; reflexivity.
  - reflexivity.
  - reflexivity.
  - apply binary_normalize_number.
Qed.

Lemma div_number (x : number) (s : bool) (m : positive) (e : Z) :
  isNaN x = false -> isNaN (div x (S754_finite s m e)) = false.
Proof.
  destruct x as [sx|sx| |sx mx ex]; try discriminate; intros _;
    try reflexivity.
  unfold div, SFdiv, SFdiv_core_binary.
  set (m' := match _ with Z0 => Z.pos mx | Z.pos _ => _ | Z.neg _ => 0%Z end).
  assert (Hm' : (0 <= m')%Z).
  { subst m'. destruct (_ - _ - _)%Z; try lia.
    apply Z.shiftl_nonneg. lia. }
  pose proof (Z.div_pos m' (Z.pos m) Hm' ltac:(lia)) as Hq.
  unfold Z.div in Hq.
  destruct (Z.div_eucl m' (Z.pos m)) as [q r].
  apply binary_round_aux_number, Hq.
Qed.

Lemma mul_number (x : number) (s : bool) (m : positive) (e : Z) :
  isNaN x = false -> isNaN (mul x (S754_finite s m e)) = false.
Proof.
  destruct x as [sx|sx| |sx mx ex]; try discriminate; intros _;
    try reflexivity.
  unfold mul, SFmul. apply binary_round_aux_number. lia.
Qed.

(** The raw percentage of the resizer is NaN exactly when a zero offset is
    divided by a zero width. *)
Lemma percentage_isNaN (clientX l w : number) :
  isFinite clientX = true -> isFinite l = true -> isFinite w = true ->
  isNaN (mul (div (sub clientX l) w) (ofZ 100))
    = isZero w && isZero (sub clientX l).
Proof.
  intros Hx Hl Hw.
  pose proof (sub_number clientX l Hx Hl) as Hsub.
  change (ofZ 100) with (S754_finite false 7036874417766400 (-46)).
  destruct w as [sw| | |sw mw ew]; try discriminate Hw.
  - destruct (sub clientX l) as [sr|sr| |sr mr er]; try discriminate Hsub;
      reflexivity.
  - simpl (isZero _ && _). apply mul_number, div_number, Hsub.
Qed.

End JsNumberFacts.

(** ** Correction workflow *)

Module CorrectionWorkflow.
Import JsStringFacts.

Lemma ascending_sorted (l : list Correction) :
  ascending l = true -> sortByLineNumber l = l.
Proof.
  induction l as [|c rest IH]; [reflexivity|].
  destruct rest as [|d rest']; [reflexivity|].
  intros H. apply andb_prop in H. destruct H as [Hcd Hrest].
  change (sortByLineNumber (c :: d :: rest'))
    with (insertByLineNumber c (sortByLineNumber (d :: rest'))).
  rewrite (IH Hrest). simpl. rewrite Hcd. reflexivity.
Qed.

(** C1 (as amended): for every active pair of correction sequences,
    accepting replaces the HTML buffer with the newline join of the
    [corrected] fields of the HTML corrections in the order of the
    sequence, the CSS buffer likewise, and clears both sequences; when a
    sequence lists its lines in ascending [lineNumber] order this is the
    join in ascending [lineNumber] order. *)
Theorem accept_joins_in_sequence_order
    (now : jsstring) (s : State) (h c : list Correction) :
  htmlDiff s = Some h ->
  cssDiff s = Some c ->
  let s' := dispatch (handleAcceptCorrection now) s in
  htmlCode s' = join newline (map corrected h) /\
  cssCode s' = join newline (map corrected c) /\
  htmlDiff s' = None /\
  cssDiff s' = None /\
  (ascending h = true -> htmlCode s' = joinedInLineNumberOrder h) /\
  (ascending c = true -> cssCode s' = joinedInLineNumberOrder c).
Proof.
  intros Hh Hc s'.
  assert (Hhtml : htmlCode s' = join newline (map corrected h)).
  { subst s'. unfold dispatch, handleAcceptCorrection.
    rewrite Hh, Hc. destruct s; reflexivity. }
  assert (Hcss : cssCode s' = join newline (map corrected c)).
  { subst s'. unfold dispatch, handleAcceptCorrection.
    rewrite Hh, Hc. destruct s; reflexivity. }
  repeat split; try assumption.
  - subst s'. destruct s; unfold dispatch, handleAcceptCorrection; simpl.
    destruct htmlDiff0, cssDiff0; reflexivity.
  - subst s'. destruct s; unfold dispatch, handleAcceptCorrection; simpl.
    destruct htmlDiff0, cssDiff0; reflexivity.
  - intros Ha. unfold joinedInLineNumberOrder.
    rewrite (ascending_sorted h Ha). exact Hhtml.
  - intros Ha. unfold joinedInLineNumberOrder.
    rewrite (ascending_sorted c Ha). exact Hcss.
Qed.

(** The scenario of the specification: "<p>hi</p>" reviewed with one
    correction and an empty CSS array. *)
Lemma accept_scenario :
  htmlCode Examples.reviewingHi = js "<p>hi</p>" /\
  htmlCode (dispatch (handleAcceptCorrection Examples.noon) Examples.reviewingHi)
    = js "<p>Hi</p>" /\
  cssCode (dispatch (handleAcceptCorrection Examples.noon) Examples.reviewingHi)
    = [].
Proof.
  destruct (accept_joins_in_sequence_order Examples.noon Examples.reviewingHi
              (h := [Examples.capitalize]) (c := []) eq_refl eq_refl)
    as (Hhtml & Hcss & _ & _ & Hh & Hc).
  split; [reflexivity|].
  split; [exact (Hh eq_refl) | exact (Hc eq_refl)].
Defined.

(** A sequence out of [lineNumber] order is joined as it stands. *)
Lemma accept_ignores_lineNumber :
  htmlDiff Examples.reviewingSwapped = Some Examples.swapped /\
  cssDiff Examples.reviewingSwapped = Some [] /\
  htmlCode (dispatch (handleAcceptCorrection Examples.noon) Examples.reviewingSwapped)
    <> joinedInLineNumberOrder Examples.swapped.
Proof.
  split; [reflexivity|]. split; [reflexivity|].
  vm_compute. discriminate.
Qed.

(** C2: with both buffers empty or whitespace-only, a correction request
    makes no call, sets the validation message, prepends one
    "Validation Error" log entry and leaves every other cell as it was. *)
Theorem blank_request_rejected (now : jsstring) (s : State) :
  whitespaceOnly (htmlCode s) = true ->
  whitespaceOnly (cssCode s) = true ->
  snd (handleCorrectCode_start now s) = None /\
  fst (handleCorrectCode_start now s) s =
    {| htmlCode := htmlCode s;
       cssCode := cssCode s;
       htmlDiff := htmlDiff s;
       cssDiff := cssDiff s;
       isLoading := isLoading s;
       error := Some (js "Please enter some HTML or CSS code to correct.");
       logs :=
         (js "[" ++ now ++
          js "] Validation Error: Please enter some HTML or CSS code to correct.")
         :: logs s;
       isLogPanelExpanded := isLogPanelExpanded s;
       isPreviewPanelExpanded := isPreviewPanelExpanded s;
       isPreviewFullScreen := isPreviewFullScreen s;
       isPreviewPinned := isPreviewPinned s;
       chatQuery := chatQuery s;
       chatResponse := chatResponse s;
       isChatResponseVisible := isChatResponseVisible s;
       isChatLoading := isChatLoading s;
       dividerPosition := dividerPosition s;
       isDragging := isDragging s;
       isHtmlFocused := isHtmlFocused s;
       isCssFocused := isCssFocused s |}.
Proof.
  intros Hh Hc. unfold handleCorrectCode_start.
  rewrite !truthy_trim, Hh, Hc. simpl.
  split; [reflexivity|]. destruct s; reflexivity.
Qed.

Lemma blank_request_rejected_witness :
  snd (handleCorrectCode_start Examples.noon Examples.blankBuffers) = None /\
  error (fst (handleCorrectCode_start Examples.noon Examples.blankBuffers)
           Examples.blankBuffers)
    = Some validationMessage /\
  List.length (logs (fst (handleCorrectCode_start Examples.noon Examples.blankBuffers)
                  Examples.blankBuffers)) = 1.
Proof.
  destruct (blank_request_rejected Examples.noon Examples.blankBuffers
              eq_refl eq_refl) as [Hcall Hcells].
  split; [exact Hcall|].
  rewrite Hcells. split; reflexivity.
Defined.

(** C5: a correction request, however it settles, followed by "edit
    again" leaves both code buffers as they were before the request and
    both correction sequences cleared; "edit again" itself never writes
    a code buffer. *)
Theorem editAgain_keeps_buffers
    (s : State) (t0 t1 t2 t3 : jsstring) (r : Settled CorrectionResponse) :
  let requested := fst (handleCorrectCode_start t0 s) s in
  let settled := handleCorrectCode_settled t1 t2 r requested in
  let s' := handleEditAgain t3 settled in
  htmlCode s' = htmlCode s /\
  cssCode s' = cssCode s /\
  htmlDiff s' = None /\
  cssDiff s' = None /\
  htmlCode (handleEditAgain t3 s) = htmlCode s /\
  cssCode (handleEditAgain t3 s) = cssCode s /\
  htmlDiff (handleEditAgain t3 s) = None /\
  cssDiff (handleEditAgain t3 s) = None.
Proof.
  unfold handleCorrectCode_start.
  destruct (negb (truthy (trim (htmlCode s))) && negb (truthy (trim (cssCode s))));
    destruct s, r as [[[h|] [c|]]|[message|]]; cbv zeta; simpl;
    repeat split; reflexivity.
Qed.

(** Open a session down to its cells. *)
Ltac by_cells w :=
  let s := fresh "s" in
  destruct w as [s ? ?]; destruct s; simpl in *.

Lemma step_requestConsistent (e : Event) (w w' : Session) :
  requestConsistent w -> step e w = Some w' -> requestConsistent w'.
Proof.
  unfold step. intros Hw Hstep.
  destruct (offered e w) eqn:Hoff; [|discriminate].
  injection Hstep as <-.
  unfold requestConsistent in *.
  destruct e; try (by_cells w; exact Hw).
  - (* CorrectClick *)
    unfold offered, correctButtonEnabled, correctButtonDisabled in Hoff.
    unfold react, handleCorrectCode_start.
    destruct (negb (truthy (trim (htmlCode (cells w))))
              && negb (truthy (trim (cssCode (cells w)))));
      by_cells w.
    + exact Hw.
    + destruct Hw as [[-> ->] | [_ [-> _]]]; [|discriminate Hoff].
      right. repeat split; reflexivity.
  - (* CorrectCodeSettles *)
    by_cells w.
    destruct Hw as [[-> _] | [-> _]]; [discriminate Hoff|].
    left. split; [reflexivity|].
    destruct r as [[[h|] [c|]]|[message|]]; reflexivity.
  - (* ChatSubmit *)
    unfold react, handleChatSubmit_start.
    destruct (negb (truthy (trim (chatQuery (cells w)))) || isChatLoading (cells w));
      by_cells w; exact Hw.
  - (* ChatResponseSettles *)
    by_cells w. destruct r as [response|[message|]]; exact Hw.
  - (* AcceptClick *)
    unfold offered, reviewButtonsShown in Hoff. by_cells w.
    destruct isLoading0; [rewrite andb_false_r in Hoff; discriminate|].
    destruct Hw as [[-> _] | [_ [Hl _]]]; [|discriminate Hl].
    left. destruct htmlDiff0, cssDiff0; split; reflexivity.
  - (* EditAgainClick *)
    unfold offered, reviewButtonsShown in Hoff. by_cells w.
    destruct isLoading0; [rewrite andb_false_r in Hoff; discriminate|].
    destruct Hw as [[-> _] | [_ [Hl _]]]; [|discriminate Hl].
    left. split; reflexivity.
  - (* DocumentMouseMove *)
    unfold react, dispatch, handleMouseMove.
    destruct current as [rect|]; [destruct (negb (isDragging (cells w)))|];
      by_cells w; exact Hw.
  - (* PinClick *)
    unfold react, dispatch, handleTogglePinPreview.
    destruct (isPreviewPinned (cells w)); by_cells w; exact Hw.
  - (* FullScreenClick *)
    unfold react, handleTogglePreviewFullScreen.
    destruct (isPreviewFullScreen (cells w)); by_cells w; exact Hw.
Qed.

Lemma run_requestConsistent (events : list Event) (w w' : Session) :
  requestConsistent w -> run events w = Some w' -> requestConsistent w'.
Proof.
  revert w. induction events as [|e rest IH]; simpl; intros w Hw Hrun.
  - injection Hrun as <-. exact Hw.
  - destruct (step e w) as [w1|] eqn:Hstep; [|discriminate].
    exact (IH w1 (step_requestConsistent e Hw Hstep) Hrun).
Qed.

Lemma initial_requestConsistent : requestConsistent initialSession.
Proof. left. split; reflexivity. Qed.


(** Only the two textareas and "accept" write the code buffers. *)
Lemma react_keeps_buffers (e : Event) (w : Session) :
  writesBuffers e = false ->
  htmlCode (cells (react e w)) = htmlCode (cells w) /\
  cssCode (cells (react e w)) = cssCode (cells w).
Proof.
  intros He.
  destruct e; try discriminate He; try (by_cells w; split; reflexivity).
  - unfold react, handleCorrectCode_start.
    destruct (negb (truthy (trim (htmlCode (cells w))))
              && negb (truthy (trim (cssCode (cells w)))));
      by_cells w; split; reflexivity.
  - by_cells w. destruct r as [[[h|] [c|]]|[message|]]; split; reflexivity.
  - unfold react, handleChatSubmit_start.
    destruct (negb (truthy (trim (chatQuery (cells w)))) || isChatLoading (cells w));
      by_cells w; split; reflexivity.
  - by_cells w. destruct r as [response|[message|]]; split; reflexivity.
  - unfold react, dispatch, handleMouseMove.
    destruct current as [rect|]; [destruct (negb (isDragging (cells w)))|];
      by_cells w; split; reflexivity.
  - unfold react, dispatch, handleTogglePinPreview.
    destruct (isPreviewPinned (cells w)); by_cells w; split; reflexivity.
  - unfold react, handleTogglePreviewFullScreen.
    destruct (isPreviewFullScreen (cells w)); by_cells w; split; reflexivity.
Qed.

Lemma run_app (events1 events2 : list Event) (w : Session) :
  run (events1 ++ events2) w
    = match run events1 w with
      | Some w1 => run events2 w1
      | None => None
      end.
Proof.
  revert w. induction events1 as [|e rest IH]; simpl; intros w.
  - reflexivity.
  - destruct (step e w); [apply IH | reflexivity].
Qed.

Lemma step_awaitingReview (html css : jsstring) (e : Event) (w w' : Session) :
  isCorrectClick e = false ->
  awaitingReview html css w ->
  step e w = Some w' ->
  awaitingReview html css w'.
Proof.
  intros He [(Hhtml & Hcss & Hreq) | (Hpending & Hnone)] Hstep.
  - destruct (writesBuffers e) eqn:Hwrites.
    + (* an edit or an accept: offered only with no call in flight *)
      right. unfold step in Hstep.
      destruct (offered e w) eqn:Hoff; [|discriminate].
      injection Hstep as <-.
      unfold requestConsistent in Hreq.
      destruct e; try discriminate Hwrites;
        unfold offered, textareaEditable, reviewButtonsShown in Hoff;
        by_cells w;
        destruct isLoading0; rewrite ?andb_false_r in Hoff; try discriminate Hoff;
        destruct Hreq as [[-> _] | [_ [Hl _]]]; try discriminate Hl;
        split; try reflexivity.
      * destruct htmlDiff0; [discriminate Hoff | reflexivity].
      * destruct cssDiff0; [discriminate Hoff | apply andb_false_r].
      * destruct htmlDiff0, cssDiff0; reflexivity.
    + left.
      pose proof (step_requestConsistent e Hreq Hstep) as Hreq'.
      unfold step in Hstep. destruct (offered e w); [|discriminate].
      injection Hstep as <-.
      destruct (react_keeps_buffers e w Hwrites) as [-> ->].
      auto.
  - right. unfold step in Hstep.
    destruct (offered e w) eqn:Hoff; [|discriminate].
    injection Hstep as <-.
    destruct e; try discriminate He;
      try (by_cells w; split; assumption).
    + by_cells w. subst. discriminate Hoff.
    + unfold react, handleChatSubmit_start.
      destruct (negb (truthy (trim (chatQuery (cells w)))) || isChatLoading (cells w));
        by_cells w; split; assumption.
    + by_cells w. destruct r as [response|[message|]]; split; assumption.
    + unfold offered, reviewButtonsShown in Hoff. by_cells w.
      rewrite Hnone in Hoff. discriminate Hoff.
    + unfold react, dispatch, handleMouseMove.
      destruct current as [rect|]; [destruct (negb (isDragging (cells w)))|];
        by_cells w; split; assumption.
    + unfold react, dispatch, handleTogglePinPreview.
      destruct (isPreviewPinned (cells w)); by_cells w; split; assumption.
    + unfold react, handleTogglePreviewFullScreen.
      destruct (isPreviewFullScreen (cells w)); by_cells w; split; assumption.
Qed.

Lemma run_awaitingReview (html css : jsstring) (events : list Event) (w w' : Session) :
  forallb (fun e => negb (isCorrectClick e)) events = true ->
  awaitingReview html css w ->
  run events w = Some w' ->
  awaitingReview html css w'.
Proof.
  revert w. induction events as [|e rest IH]; simpl; intros w Hno Hw Hrun.
  - injection Hrun as <-. exact Hw.
  - apply andb_prop in Hno. destruct Hno as [He Hrest].
    apply negb_true_iff in He.
    destruct (step e w) as [w1|] eqn:Hstep; [|discriminate].
    exact (IH w1 Hrest (step_awaitingReview e He Hw Hstep) Hrun).
Qed.

(** X11: in a whole session, from a correction request to the "edit
    again" that drops its review, whatever else the user does meanwhile
    (chat, panels, dragging) and however the calls settle, the code buffers
    come back as they were when the request was made. *)
Lemma editAgain_in_session
    (before between : list Event) (t0 t3 : jsstring) (w0 w' : Session) :
  run before initialSession = Some w0 ->
  forallb (fun e => negb (isCorrectClick e)) between = true ->
  run (CorrectClick t0 :: between ++ [EditAgainClick t3]) w0 = Some w' ->
  htmlCode (cells w') = htmlCode (cells w0) /\
  cssCode (cells w') = cssCode (cells w0) /\
  htmlDiff (cells w') = None /\
  cssDiff (cells w') = None.
Proof.
  intros Hbefore Hbetween Hrun.
  pose proof (run_requestConsistent before initial_requestConsistent Hbefore) as Hreq.
  change (run (CorrectClick t0 :: between ++ [EditAgainClick t3]) w0)
    with (match step (CorrectClick t0) w0 with
          | Some w1 => run (between ++ [EditAgainClick t3]) w1
          | None => None
          end) in Hrun.
  destruct (step (CorrectClick t0) w0) as [w1|] eqn:Hclick; [|discriminate].
  assert (Hw1 : awaitingReview (htmlCode (cells w0)) (cssCode (cells w0)) w1).
  { left.
    pose proof (step_requestConsistent _ Hreq Hclick) as Hreq1.
    unfold step in Hclick. destruct (offered _ w0); [|discriminate].
    injection Hclick as <-.
    destruct (react_keeps_buffers (CorrectClick t0) w0 eq_refl) as [Hhtml Hcss].
    split; [exact Hhtml | split; [exact Hcss | exact Hreq1]]. }
  rewrite run_app in Hrun.
  destruct (run between w1) as [w2|] eqn:Hmid; [|discriminate].
  pose proof (run_awaitingReview between Hbetween Hw1 Hmid) as Hw2.
  simpl in Hrun. unfold step in Hrun.
  destruct (offered (EditAgainClick t3) w2) eqn:Hoff; [|discriminate].
  injection Hrun as <-.
  unfold offered, reviewButtonsShown in Hoff.
  destruct Hw2 as [(Hhtml & Hcss & _) | (_ & Hnone)].
  - rewrite <- Hhtml, <- Hcss. by_cells w2. repeat split; reflexivity.
  - rewrite Hnone in Hoff. discriminate Hoff.
Qed.

Example editAgain_in_session_example :
  exists w',
    run (CorrectClick Examples.noon
           :: Examples.reviewedMeanwhile ++ [EditAgainClick Examples.noon])
        initialSession = Some w' /\
    htmlCode (cells w') = initialHtml /\
    cssCode (cells w') = initialCss.
Proof.
  eexists. split; [vm_compute; reflexivity|].
  split; reflexivity.
Qed.

(** C6: whenever a correction call that is in flight settles, fulfilled
    well-formed, fulfilled malformed or rejected, the loading flag goes
    from true back to false; if it is rejected with an [Error], its
    message becomes the user-visible error as it is, the "API Error" and
    "finished" entries are logged, no correction sequence is stored, and
    the correction button is enabled again. *)
Theorem request_always_resolves
    (events : list Event) (w : Session)
    (now1 now2 : jsstring) (r : Settled CorrectionResponse) :
  run events initialSession = Some w ->
  offered (CorrectCodeSettles now1 now2 r) w = true ->
  let s := cells w in
  let s' := cells (react (CorrectCodeSettles now1 now2 r) w) in
  isLoading s = true /\
  isLoading s' = false /\
  forall message,
    r = Rejected (ErrorInstance message) ->
    error s' = Some message /\
    logs s' =
      (js "[" ++ now2 ++ js "] Correction process finished.")
      :: (js "[" ++ now1 ++ js "] API Error: " ++ message)
      :: logs s /\
    htmlDiff s' = None /\
    cssDiff s' = None /\
    correctButtonEnabled s' = true.
Proof.
  intros Hrun Hoff.
  pose proof (run_requestConsistent events initial_requestConsistent Hrun) as Hw.
  unfold requestConsistent in Hw.
  by_cells w.
  destruct Hw as [[-> _] | [_ [-> [-> ->]]]]; [discriminate Hoff|].
  split; [reflexivity|].
  split; [destruct r as [[[h|] [c|]]|[message|]]; reflexivity|].
  intros message ->. repeat split; reflexivity.
Qed.

Lemma request_always_resolves_witness :
  isLoading (cells Examples.requesting) = true /\
  isLoading Examples.failed = false /\
  error Examples.failed = Some (js "Failed to correct code: quota exceeded") /\
  correctButtonEnabled Examples.failed = true.
Proof.
  destruct (request_always_resolves [CorrectClick Examples.noon]
              (w := Examples.requesting) Examples.noon Examples.noon
              (Rejected Examples.failure) eq_refl eq_refl)
    as (Hbefore & Hafter & Hfail).
  destruct (Hfail _ eq_refl) as (Herr & _ & _ & _ & Hgate).
  repeat split; assumption.
Defined.

Ltac by_state s := destruct s; simpl in *.

Lemma react_paired (e : Event) (w : Session) :
  paired (cells w) = true -> paired (cells (react e w)) = true.
Proof.
  unfold paired. intros Hw.
  destruct e; try (by_cells w; exact Hw).
  - unfold react, handleCorrectCode_start.
    destruct (negb (truthy (trim (htmlCode (cells w))))
              && negb (truthy (trim (cssCode (cells w)))));
      by_cells w; [exact Hw | reflexivity].
  - by_cells w. destruct r as [[[h|] [c|]]|[message|]]; simpl;
      first [exact Hw | reflexivity].
  - unfold react, handleChatSubmit_start.
    destruct (negb (truthy (trim (chatQuery (cells w)))) || isChatLoading (cells w));
      by_cells w; exact Hw.
  - by_cells w. destruct r as [response|[message|]]; exact Hw.
  - by_cells w. destruct htmlDiff0, cssDiff0; reflexivity.
  - by_cells w. reflexivity.
  - unfold react, dispatch, handleMouseMove.
    destruct current as [rect|]; [destruct (negb (isDragging (cells w)))|];
      by_cells w; exact Hw.
  - unfold react, dispatch, handleTogglePinPreview.
    destruct (isPreviewPinned (cells w)); by_cells w; exact Hw.
  - unfold react, handleTogglePreviewFullScreen.
    destruct (isPreviewFullScreen (cells w)); by_cells w; exact Hw.
Qed.

Lemma play_paired (events : list Event) (w : Session) :
  paired (cells w) = true -> paired (cells (play events w)) = true.
Proof.
  revert w. induction events as [|e rest IH]; simpl; intros w Hw.
  - exact Hw.
  - apply IH, react_paired, Hw.
Qed.

Lemma run_play (events : list Event) (w w' : Session) :
  run events w = Some w' -> play events w = w'.
Proof.
  revert w. induction events as [|e rest IH]; simpl; intros w Hrun.
  - congruence.
  - unfold step in Hrun. destruct (offered e w); [|discriminate].
    exact (IH _ Hrun).
Qed.

(** In particular in every session the view allows. *)
Lemma run_paired (events : list Event) (w : Session) :
  run events initialSession = Some w -> paired (cells w) = true.
Proof.
  intros Hrun. rewrite <- (run_play events initialSession Hrun).
  apply play_paired. reflexivity.
Qed.

(** C9: after any sequence of handler invocations from the initial
    session (correction requests settling in any way, accept, edit again,
    chat, edits, panel and drag operations, whether the view offers them
    or not), the HTML correction sequence is null if and only if the CSS
    correction sequence is null. *)
Theorem corrections_never_partial (events : list Event) :
  let s := cells (play events initialSession) in
  htmlDiff s = None <-> cssDiff s = None.
Proof.
  intros s.
  assert (H : paired s = true) by (apply play_paired; reflexivity).
  unfold paired in H. apply eqb_prop in H.
  destruct (htmlDiff s), (cssDiff s); simpl in H;
    split; intros; congruence.
Qed.

(** C10: the correction button is enabled exactly when no request is
    loading and the two correction sequences are not both present; while
    both are present a click dispatches nothing and the view offers no
    correction request, and once the review is accepted or dropped the
    button is enabled again. *)
Theorem correct_button_gate (now : jsstring) (s : State) :
  correctButtonEnabled s
    = negb (isLoading s) && negb (present (htmlDiff s) && present (cssDiff s)) /\
  (present (htmlDiff s) && present (cssDiff s) = true ->
   clickCorrect now s = (s, None) /\
   (forall w, cells w = s -> step (CorrectClick now) w = None) /\
   (isLoading s = false ->
    correctButtonEnabled (dispatch (handleAcceptCorrection now) s) = true /\
    correctButtonEnabled (handleEditAgain now s) = true)).
Proof.
  split.
  - unfold correctButtonEnabled, correctButtonDisabled.
    apply negb_orb.
  - intros Hboth.
    assert (Hdis : correctButtonDisabled s = true).
    { unfold correctButtonDisabled. rewrite Hboth. apply orb_true_r. }
    split; [|split].
    + unfold clickCorrect. rewrite Hdis. reflexivity.
    + intros w <-. unfold step, offered, correctButtonEnabled.
      rewrite Hdis. reflexivity.
    + intros Hl. by_state s. subst.
      destruct htmlDiff0, cssDiff0; try discriminate Hboth.
      split; reflexivity.
Qed.

Lemma correct_button_gate_witness :
  clickCorrect Examples.noon Examples.reviewingHi = (Examples.reviewingHi, None) /\
  step (CorrectClick Examples.noon) (mkSession Examples.reviewingHi 0 0) = None /\
  correctButtonEnabled
    (dispatch (handleAcceptCorrection Examples.noon) Examples.reviewingHi) = true /\
  correctButtonEnabled (handleEditAgain Examples.noon Examples.reviewingHi) = true.
Proof.
  destruct (correct_button_gate Examples.noon Examples.reviewingHi)
    as [_ Hreview].
  destruct (Hreview eq_refl) as (Hclick & Hstep & Hagain).
  destruct (Hagain eq_refl) as [Haccept Hedit].
  pose proof (Hstep (mkSession Examples.reviewingHi 0 0) eq_refl) as Hnone.
  repeat split; assumption.
Defined.

End CorrectionWorkflow.

(** ** Chat workflow *)

Module ChatWorkflow.
Import JsStringFacts.

(** The correction workflow's banner does not survive a chat query. *)
Lemma submit_clears_error_banner :
  error Examples.bannerShown
    = Some (js "Failed to correct code: quota exceeded") /\
  error (fst (submitChat Examples.noon Examples.bannerShown))
    <> error Examples.bannerShown.
Proof.
  split; [reflexivity|]. vm_compute. discriminate.
Qed.

(** C4 (as amended): submitting a chat query, and the settling of its
    call, leave the stored correction sequences, the correction loading
    flag and both code buffers unchanged; a submission that passes the
    guard sets the user-visible error message to null, a guarded one
    keeps it, and the settling keeps it; apart from that only log entries
    and chat cells change: a guarded submission changes nothing, one that
    passes prepends its log entry, sets the chat loading flag, empties the
    stored response and shows the popup, and the settling prepends its
    log entry, stores the response, clears the chat loading flag and
    empties the query. *)
Theorem chat_frame (now : jsstring) (s : State) (r : Settled jsstring) :
  fst (submitChat now s)
    = match snd (submitChat now s) with
      | None => s
      | Some _ =>
          {| htmlCode := htmlCode s;
             cssCode := cssCode s;
             htmlDiff := htmlDiff s;
             cssDiff := cssDiff s;
             isLoading := isLoading s;
             error := None;
             logs :=
               (js "[" ++ now ++ js "] Chat query submitted: " ++ quote
                  ++ chatQuery s ++ quote)
               :: logs s;
             isLogPanelExpanded := isLogPanelExpanded s;
             isPreviewPanelExpanded := isPreviewPanelExpanded s;
             isPreviewFullScreen := isPreviewFullScreen s;
             isPreviewPinned := isPreviewPinned s;
             chatQuery := chatQuery s;
             chatResponse := [];
             isChatResponseVisible := true;
             isChatLoading := true;
             dividerPosition := dividerPosition s;
             isDragging := isDragging s;
             isHtmlFocused := isHtmlFocused s;
             isCssFocused := isCssFocused s |}
      end /\
  handleChatSubmit_settled now r s
    = {| htmlCode := htmlCode s;
         cssCode := cssCode s;
         htmlDiff := htmlDiff s;
         cssDiff := cssDiff s;
         isLoading := isLoading s;
         error := error s;
         logs :=
           (js "[" ++ now ++
            match r with
            | Fulfilled _ => js "] Chat response received."
            | Rejected (ErrorInstance message) => js "] Chat Error: " ++ message
            | Rejected OtherValue =>
                js "] Chat Error: An unknown chat error occurred."
            end)
           :: logs s;
         isLogPanelExpanded := isLogPanelExpanded s;
         isPreviewPanelExpanded := isPreviewPanelExpanded s;
         isPreviewFullScreen := isPreviewFullScreen s;
         isPreviewPinned := isPreviewPinned s;
         chatQuery := [];
         chatResponse :=
           match r with
           | Fulfilled answer => answer
           | Rejected (ErrorInstance message) => js "**Error:** " ++ message
           | Rejected OtherValue =>
               js "**Error:** An unknown chat error occurred."
           end;
         isChatResponseVisible := isChatResponseVisible s;
         isChatLoading := false;
         dividerPosition := dividerPosition s;
         isDragging := isDragging s;
         isHtmlFocused := isHtmlFocused s;
         isCssFocused := isCssFocused s |}.
Proof.
  unfold submitChat, handleChatSubmit_start.
  destruct (negb (truthy (trim (chatQuery s))) || isChatLoading s);
    destruct s, r as [response|[message|]]; simpl; split; reflexivity.
Qed.

(** C8: submitting while a chat call is pending, or submitting an empty or
    whitespace-only query, changes no cell at all (so the log, the stored
    response, the popup visibility and the chat loading flag stay) and
    makes no call. *)
Theorem guarded_submit_is_noop (now : jsstring) (s : State) :
  whitespaceOnly (chatQuery s) = true \/ isChatLoading s = true ->
  submitChat now s = (s, None).
Proof.
  intros Hguard. unfold submitChat, handleChatSubmit_start.
  rewrite truthy_trim, negb_involutive.
  destruct Hguard as [-> | ->]; [|rewrite orb_true_r]; reflexivity.
Qed.

Lemma guarded_submit_is_noop_witness :
  isChatLoading Examples.chatPending = true /\
  submitChat Examples.noon Examples.chatPending = (Examples.chatPending, None) /\
  submitChat Examples.noon initialState = (initialState, None).
Proof.
  split; [reflexivity|].
  split; apply guarded_submit_is_noop; [right | left]; reflexivity.
Defined.

End ChatWorkflow.

(** ** Split-pane resizer *)

Module Resizer.
Import JsNumber JsNumberFacts.

(** The raw percentage [handleMouseMove] clamps. *)
Lemma pointer_move_position (clientX : number) (rect : DOMRect) (s : State) :
  isDragging s = true ->
  dividerPosition (dispatch (handleMouseMove clientX (Some rect)) s)
    = clamp (ofZ 15) (ofZ 85)
        (mul (div (sub clientX (left rect)) (width rect)) (ofZ 100)).
Proof.
  unfold dispatch, handleMouseMove. intros ->. destruct s; reflexivity.
Qed.

(** Outside a drag, or without a mounted container, nothing moves. *)
Lemma pointer_move_unarmed (clientX : number) (current : option DOMRect) (s : State) :
  isDragging s = false \/ current = None ->
  dispatch (handleMouseMove clientX current) s = s.
Proof.
  unfold dispatch, handleMouseMove.
  intros [-> | ->]; [destruct current|]; reflexivity.
Qed.

(** Whenever the raw percentage is a number, the clamp holds: negative
    and over-100 ratios and both infinities end within [15, 85]. *)
Lemma pointer_move_in_bounds (clientX : number) (rect : DOMRect) (s : State) :
  isDragging s = true ->
  isNaN (mul (div (sub clientX (left rect)) (width rect)) (ofZ 100)) = false ->
  splitInBounds
    (dividerPosition (dispatch (handleMouseMove clientX (Some rect)) s)) = true.
Proof.
  intros Hdrag Hnum. rewrite (pointer_move_position _ _ _ Hdrag).
  unfold splitInBounds.
  apply clamp_within; try reflexivity; try assumption.
  - exists false, 8444249301319680%positive, (-49)%Z. reflexivity.
  - exists false, 5981343255101440%positive, (-46)%Z. reflexivity.
Qed.

(** X16: during an armed drag, for finite pointer and container
    coordinates, the split position ends within [15, 85] in every case but
    one: a zero offset over a zero width. *)
Lemma pointer_move_bounds_iff (clientX : number) (rect : DOMRect) (s : State) :
  isDragging s = true ->
  isFinite clientX = true ->
  isFinite (left rect) = true ->
  isFinite (width rect) = true ->
  splitInBounds
    (dividerPosition (dispatch (handleMouseMove clientX (Some rect)) s))
    = negb (isZero (width rect) && isZero (sub clientX (left rect))).
Proof.
  intros Hdrag Hx Hl Hw.
  rewrite <- (percentage_isNaN _ _ _ Hx Hl Hw).
  destruct (isNaN _) eqn:Hnum.
  - rewrite (pointer_move_position _ _ _ Hdrag).
    rewrite clamp_is_NaN; try assumption; try reflexivity.
    + exists false, 8444249301319680%positive, (-49)%Z. reflexivity.
    + exists false, 5981343255101440%positive, (-46)%Z. reflexivity.
  - apply pointer_move_in_bounds; assumption.
Qed.

Lemma pointer_move_keeps_drag (clientX : number) (current : option DOMRect) (s : State) :
  isDragging (dispatch (handleMouseMove clientX current) s) = isDragging s.
Proof.
  unfold dispatch, handleMouseMove.
  destruct current as [rect|]; [destruct (negb (isDragging s))|];
    destruct s; reflexivity.
Qed.

(** A whole drag: as long as every raw percentage is a number, the split
    position stays within [15, 85] after every move. *)
Lemma drag_session_in_bounds (moves : list (number * DOMRect)) (s : State) :
  isDragging s = true ->
  splitInBounds (dividerPosition s) = true ->
  Forall (fun move =>
            isNaN (mul (div (sub (fst move) (left (snd move))) (width (snd move)))
                       (ofZ 100)) = false) moves ->
  splitInBounds
    (dividerPosition
       (fold_left (fun s move =>
                     dispatch (handleMouseMove (fst move) (Some (snd move))) s)
                  moves s)) = true.
Proof.
  intros Hdrag Hs Hmoves. revert s Hdrag Hs.
  induction Hmoves as [|[clientX rect] rest Hnum _ IH]; simpl; intros s Hdrag Hs.
  - exact Hs.
  - apply IH.
    + rewrite pointer_move_keeps_drag. exact Hdrag.
    + apply pointer_move_in_bounds; assumption.
Qed.

(** Dragging from x=0 to x=1000 over a 1000-wide container: 15, then 85. *)
Lemma drag_across_thousand :
  dividerPosition Examples.movedToZero = ofZ 15 /\
  dividerPosition Examples.movedToThousand = ofZ 85.
Proof. split; vm_compute; reflexivity. Qed.

(** C3: during an armed drag over a container collapsed to zero width,
    with the pointer on its left edge, the raw ratio is 0/0: the clamp
    lets NaN through and the split position leaves [15, 85]. *)
Theorem collapsed_container_escapes_clamp :
  isDragging Examples.dragging = true /\
  dividerPosition Examples.movedOverCollapsed = S754_nan /\
  splitInBounds (dividerPosition Examples.movedOverCollapsed) = false.
Proof. repeat split; vm_compute; reflexivity. Qed.

End Resizer.

(** ** Panel expansion controller *)

Module PanelController.

(** C7: unpinning the preview panel, and leaving full screen, leave the
    hover expansion off whatever it was before. *)
Theorem unpin_and_exit_clear_hover (s : State) :
  (isPreviewPinned s = true ->
   isPreviewPanelExpanded (dispatch handleTogglePinPreview s) = false /\
   isPreviewPinned (dispatch handleTogglePinPreview s) = false) /\
  (isPreviewFullScreen s = true ->
   isPreviewPanelExpanded (handleTogglePreviewFullScreen s) = false /\
   isPreviewFullScreen (handleTogglePreviewFullScreen s) = false).
Proof.
  unfold dispatch, handleTogglePinPreview, handleTogglePreviewFullScreen.
  split; intros H; destruct s; simpl in *; subst; split; reflexivity.
Qed.

Lemma unpin_and_exit_clear_hover_witness :
  isPreviewPanelExpanded Examples.previewOpen = true /\
  isPreviewPanelExpanded (dispatch handleTogglePinPreview Examples.previewOpen) = false /\
  isPreviewPanelExpanded (handleTogglePreviewFullScreen Examples.previewOpen) = false.
Proof.
  destruct (unpin_and_exit_clear_hover Examples.previewOpen) as [Hpin Hfull].
  split; [reflexivity|].
  split; [exact (proj1 (Hpin eq_refl)) | exact (proj1 (Hfull eq_refl))].
Defined.

(** Pinning and entering full screen leave the hover expansion alone. *)
Lemma pin_and_enter_keep_hover (s : State) :
  (isPreviewPinned s = false ->
   isPreviewPanelExpanded (dispatch handleTogglePinPreview s)
     = isPreviewPanelExpanded s) /\
  (isPreviewFullScreen s = false ->
   isPreviewPanelExpanded (handleTogglePreviewFullScreen s)
     = isPreviewPanelExpanded s).
Proof.
  unfold dispatch, handleTogglePinPreview, handleTogglePreviewFullScreen.
  split; intros H; destruct s; simpl in *; subst; reflexivity.
Qed.

End PanelController.

(** ** Whole sessions *)

Module Sessions.
Import JsStringFacts CorrectionWorkflow.

(** X1: in every session the view allows, at most one correction call is
    in flight, and exactly one of three holds: a call is in flight (loading,
    button disabled, no review buttons), the correction button is enabled,
    or the review buttons are shown. *)
Theorem one_request_at_a_time (events : list Event) (w : Session) :
  run events initialSession = Some w ->
  (correctionsPending w = 1 /\
   isLoading (cells w) = true /\
   correctButtonEnabled (cells w) = false /\
   reviewButtonsShown (cells w) = false) \/
  (correctionsPending w = 0 /\
   isLoading (cells w) = false /\
   correctButtonEnabled (cells w) = negb (reviewButtonsShown (cells w))).
Proof.
  intros Hrun.
  pose proof (run_requestConsistent events initial_requestConsistent Hrun) as Hw.
  unfold requestConsistent in Hw.
  unfold correctButtonEnabled, correctButtonDisabled, reviewButtonsShown.
  destruct Hw as [[Hp Hl] | (Hp & Hl & Hh & Hc)].
  - right. rewrite Hl, andb_true_r. auto.
  - left. rewrite Hl, Hh, Hc. auto.
Qed.

Lemma one_request_at_a_time_witness :
  (correctionsPending Examples.requesting = 1 /\
   isLoading (cells Examples.requesting) = true /\
   correctButtonEnabled (cells Examples.requesting) = false /\
   reviewButtonsShown (cells Examples.requesting) = false) \/
  (correctionsPending Examples.requesting = 0 /\
   isLoading (cells Examples.requesting) = false /\
   correctButtonEnabled (cells Examples.requesting)
     = negb (reviewButtonsShown (cells Examples.requesting))).
Proof.
  exact (one_request_at_a_time [CorrectClick Examples.noon]
           (w := Examples.requesting) eq_refl).
Defined.

Lemma step_bannerClear (e : Event) (w w' : Session) :
  requestConsistent w ->
  bannerClear (cells w) ->
  step e w = Some w' ->
  bannerClear (cells w').
Proof.
  unfold step. intros Hreq Hb Hstep.
  destruct (offered e w) eqn:Hoff; [|discriminate].
  injection Hstep as <-.
  unfold requestConsistent in Hreq. unfold bannerClear in *.
  destruct e; try (by_cells w; exact Hb).
  - (* CorrectClick *)
    unfold offered, correctButtonEnabled, correctButtonDisabled in Hoff.
    apply negb_true_iff, orb_false_elim in Hoff. destruct Hoff as [Hl Hboth].
    unfold react, handleCorrectCode_start.
    destruct (negb (truthy (trim (htmlCode (cells w))))
              && negb (truthy (trim (cssCode (cells w)))));
      by_cells w.
    + rewrite Hl, Hboth. intros [H|H]; discriminate H.
    + reflexivity.
  - (* CorrectCodeSettles *)
    by_cells w.
    destruct Hreq as [[-> _] | (_ & -> & -> & ->)]; [discriminate Hoff|].
    destruct r as [[[h|] [c|]]|[message|]]; simpl;
      try (intros [H|H]; discriminate H).
    intros _. apply Hb. left. reflexivity.
  - (* ChatSubmit *)
    unfold react, handleChatSubmit_start.
    destruct (negb (truthy (trim (chatQuery (cells w)))) || isChatLoading (cells w));
      by_cells w; [exact Hb | reflexivity].
  - (* ChatResponseSettles *)
    by_cells w. destruct r as [response|[message|]]; exact Hb.
  - (* AcceptClick *)
    unfold offered, reviewButtonsShown in Hoff. by_cells w.
    destruct isLoading0; [rewrite andb_false_r in Hoff; discriminate|].
    destruct htmlDiff0, cssDiff0; simpl; intros [H|H]; discriminate H.
  - (* EditAgainClick *)
    unfold offered, reviewButtonsShown in Hoff. by_cells w.
    destruct isLoading0; [rewrite andb_false_r in Hoff; discriminate|].
    intros [H|H]; discriminate H.
  - (* DocumentMouseMove *)
    unfold react, dispatch, handleMouseMove.
    destruct current as [rect|]; [destruct (negb (isDragging (cells w)))|];
      by_cells w; exact Hb.
  - (* PinClick *)
    unfold react, dispatch, handleTogglePinPreview.
    destruct (isPreviewPinned (cells w)); by_cells w; exact Hb.
  - (* FullScreenClick *)
    unfold react, handleTogglePreviewFullScreen.
    destruct (isPreviewFullScreen (cells w)); by_cells w; exact Hb.
Qed.

Lemma run_bannerClear (events : list Event) (w w' : Session) :
  requestConsistent w ->
  bannerClear (cells w) ->
  run events w = Some w' ->
  bannerClear (cells w').
Proof.
  revert w. induction events as [|e rest IH]; simpl; intros w Hreq Hb Hrun.
  - injection Hrun as <-. exact Hb.
  - destruct (step e w) as [w1|] eqn:Hstep; [|discriminate].
    exact (IH w1 (step_requestConsistent e Hreq Hstep)
                 (step_bannerClear e Hreq Hb Hstep) Hrun).
Qed.

Lemma initial_bannerClear : bannerClear (cells initialSession).
Proof. intros _. reflexivity. Qed.

(** X2: in every session the view allows, no error message is on display
    while a correction request is loading or a review is on screen. *)
Theorem no_banner_while_busy (events : list Event) (w : Session) :
  run events initialSession = Some w ->
  isLoading (cells w) = true
  \/ present (htmlDiff (cells w)) && present (cssDiff (cells w)) = true ->
  error (cells w) = None.
Proof.
  intros Hrun.
  exact (run_bannerClear events initial_requestConsistent
           initial_bannerClear Hrun).
Qed.

Lemma no_banner_while_busy_witness :
  isLoading (cells MoreExamples.retrying) = true /\
  error (cells MoreExamples.retrying) = None /\
  error (cells MoreExamples.reviewing) = None.
Proof.
  split; [reflexivity|]. split.
  - exact (no_banner_while_busy MoreExamples.retryEvents
             (w := MoreExamples.retrying) eq_refl (or_introl eq_refl)).
  - exact (no_banner_while_busy Examples.hiEvents
             (w := MoreExamples.reviewing) eq_refl (or_intror eq_refl)).
Defined.


Lemma react_chatConsistent (e : Event) (w : Session) :
  chatConsistent w -> chatConsistent (react e w).
Proof.
  unfold chatConsistent. intros Hw.
  destruct e; try (by_cells w; exact Hw).
  - unfold react, handleCorrectCode_start.
    destruct (negb (truthy (trim (htmlCode (cells w))))
              && negb (truthy (trim (cssCode (cells w)))));
      by_cells w; exact Hw.
  - by_cells w. destruct r as [[[h|] [c|]]|[message|]]; exact Hw.
  - unfold react, handleChatSubmit_start.
    destruct (isChatLoading (cells w)) eqn:Hl.
    + rewrite orb_true_r. by_cells w. rewrite Hl. exact Hw.
    + rewrite orb_false_r.
      destruct (negb (truthy (trim (chatQuery (cells w)))));
        by_cells w; [rewrite Hl; exact Hw | rewrite Hw; reflexivity].
  - by_cells w. subst.
    destruct r as [response|[message|]], isChatLoading0; reflexivity.
  - by_cells w. destruct htmlDiff0, cssDiff0; exact Hw.
  - unfold react, dispatch, handleMouseMove.
    destruct current as [rect|]; [destruct (negb (isDragging (cells w)))|];
      by_cells w; exact Hw.
  - unfold react, dispatch, handleTogglePinPreview.
    destruct (isPreviewPinned (cells w)); by_cells w; exact Hw.
  - unfold react, handleTogglePreviewFullScreen.
    destruct (isPreviewFullScreen (cells w)); by_cells w; exact Hw.
Qed.

Lemma play_chatConsistent (events : list Event) (w : Session) :
  chatConsistent w -> chatConsistent (play events w).
Proof.
  revert w. induction events as [|e rest IH]; simpl; intros w Hw.
  - exact Hw.
  - apply IH, react_chatConsistent, Hw.
Qed.

(** X3: in every session the view allows, each event arriving after the
    render that follows the one before, at most one chat call is in
    flight, and one is in flight exactly while the chat loading flag is
    set: a submission that arrives while a call is pending finds the flag
    set and is dropped by [handleChatSubmit]. *)
Theorem one_chat_at_a_time (events : list Event) (w : Session) :
  run events initialSession = Some w ->
  chatsPending w <= 1 /\
  chatsPending w = if isChatLoading (cells w) then 1 else 0.
Proof.
  intros Hrun.
  assert (H : chatConsistent w).
  { rewrite <- (run_play events initialSession Hrun).
    apply play_chatConsistent. reflexivity. }
  unfold chatConsistent in H. split; [|exact H].
  rewrite H. destruct (isChatLoading (cells w)); lia.
Qed.

Lemma one_chat_at_a_time_witness :
  chatsPending (play MoreExamples.twoSubmits initialSession) = 1 /\
  isChatLoading (cells (play MoreExamples.twoSubmits initialSession)) = true.
Proof.
  destruct (one_chat_at_a_time MoreExamples.twoSubmits
              (w := play MoreExamples.twoSubmits initialSession) eq_refl)
    as [_ Hpending].
  split; [exact Hpending | reflexivity].
Defined.

(** X4: in every session the view allows, the two panes are typed in
    under the same condition as a correction is requested: each pane is an
    enabled textarea exactly when the correction button is enabled. *)
Theorem panes_editable_when_requestable (events : list Event) (w : Session) :
  run events initialSession = Some w ->
  CodeView.editable (htmlPane (cells w)) = correctButtonEnabled (cells w) /\
  CodeView.editable (cssPane (cells w)) = correctButtonEnabled (cells w).
Proof.
  intros Hrun.
  pose proof (run_paired events Hrun) as Hp.
  unfold paired in Hp. apply eqb_prop in Hp.
  unfold htmlPane, cssPane, CodeView.CodeView, correctButtonEnabled,
    correctButtonDisabled.
  destruct (htmlDiff (cells w)), (cssDiff (cells w)); try discriminate Hp;
    simpl; rewrite ?orb_true_r, ?orb_false_r; auto.
Qed.

Lemma panes_editable_when_requestable_witness :
  CodeView.editable (htmlPane (cells MoreExamples.reviewing)) = false /\
  CodeView.editable (cssPane (cells MoreExamples.reviewing)) = false /\
  correctButtonEnabled (cells MoreExamples.reviewing) = false.
Proof.
  destruct (panes_editable_when_requestable Examples.hiEvents
              (w := MoreExamples.reviewing) eq_refl) as [Hh Hc].
  rewrite Hh, Hc. repeat split; reflexivity.
Defined.

(** X5: of all the handlers only the two textareas' [onCodeChange] and
    "accept" write a code buffer: any sequence of other handler invocations
    (requests and their settlements, chat, edit again, panels, dragging)
    ends with both buffers as they were. *)
Theorem buffers_written_only_by_edit_or_accept
    (events : list Event) (w : Session) :
  forallb (fun e => negb (writesBuffers e)) events = true ->
  htmlCode (cells (play events w)) = htmlCode (cells w) /\
  cssCode (cells (play events w)) = cssCode (cells w).
Proof.
  revert w. induction events as [|e rest IH]; simpl; intros w Hall.
  - split; reflexivity.
  - apply andb_prop in Hall. destruct Hall as [He Hrest].
    apply negb_true_iff in He.
    destruct (IH (react e w) Hrest) as [-> ->].
    exact (react_keeps_buffers e w He).
Qed.

Lemma buffers_written_only_by_edit_or_accept_witness :
  htmlCode (cells (play MoreExamples.busyEvents initialSession)) = initialHtml /\
  cssCode (cells (play MoreExamples.busyEvents initialSession)) = initialCss.
Proof.
  exact (buffers_written_only_by_edit_or_accept MoreExamples.busyEvents
           initialSession eq_refl).
Defined.

Lemma react_logs (e : Event) (w : Session) :
  exists new,
    logs (cells (react e w)) = new ++ logs (cells w) /\ List.length new <= 2.
Proof.
  destruct e;
    try (exists []; by_cells w; split; [reflexivity | simpl; lia]).
  - unfold react, handleCorrectCode_start.
    destruct (negb (truthy (trim (htmlCode (cells w))))
              && negb (truthy (trim (cssCode (cells w)))));
      by_cells w; eexists [_]; split; try reflexivity; simpl; lia.
  - by_cells w.
    destruct r as [[[h|] [c|]]|[message|]]; eexists [_; _];
      split; try reflexivity; simpl; lia.
  - unfold react, handleChatSubmit_start.
    destruct (negb (truthy (trim (chatQuery (cells w)))) || isChatLoading (cells w));
      by_cells w; [exists [] | eexists [_]]; split; try reflexivity; simpl; lia.
  - by_cells w. destruct r as [response|[message|]]; eexists [_];
      split; try reflexivity; simpl; lia.
  - by_cells w. destruct htmlDiff0, cssDiff0; eexists [_];
      split; try reflexivity; simpl; lia.
  - by_cells w. eexists [_]; split; try reflexivity; simpl; lia.
  - unfold react, dispatch, handleMouseMove.
    destruct current as [rect|]; [destruct (negb (isDragging (cells w)))|];
      by_cells w; exists []; split; try reflexivity; simpl; lia.
  - unfold react, dispatch, handleTogglePinPreview.
    destruct (isPreviewPinned (cells w)); by_cells w; exists [];
      split; try reflexivity; simpl; lia.
  - unfold react, handleTogglePreviewFullScreen.
    destruct (isPreviewFullScreen (cells w)); by_cells w; exists [];
      split; try reflexivity; simpl; lia.
Qed.

(** X6: the activity log only grows at its head: after any sequence of
    handler invocations the earlier log is still there, unchanged and in
    order, below the new entries, and each invocation adds at most two. *)
Theorem log_only_grows (events : list Event) (w : Session) :
  exists new,
    logs (cells (play events w)) = new ++ logs (cells w) /\
    List.length new <= 2 * List.length events.
Proof.
  revert w. induction events as [|e rest IH]; intros w.
  - exists []. split; [reflexivity | simpl; lia].
  - destruct (IH (react e w)) as (later & Hlater & Hn).
    destruct (react_logs e w) as (first & Hfirst & Hm).
    exists (later ++ first). split.
    + simpl play. rewrite Hlater, Hfirst. apply app_assoc.
    + rewrite length_app. simpl List.length. lia.
Qed.

(** X7: when a correction call in flight is fulfilled with both arrays,
    the review opens: both sequences are stored as received, both panes
    turn into diff views of them, the review buttons are shown, the
    correction button stays disabled, no error is on display, loading is
    over and the code buffers are untouched. *)
Theorem review_opens
    (events : list Event) (w : Session) (now1 now2 : jsstring)
    (h c : list Correction) :
  run events initialSession = Some w ->
  correctionsPending w <> 0 ->
  let s' :=
    cells (react (CorrectCodeSettles now1 now2
                    (Fulfilled {| htmlCorrections := Some h;
                                  cssCorrections := Some c |})) w) in
  htmlDiff s' = Some h /\
  cssDiff s' = Some c /\
  htmlPane s' = CodeView.Diff (map CodeView.DiffLine h) /\
  cssPane s' = CodeView.Diff (map CodeView.DiffLine c) /\
  reviewButtonsShown s' = true /\
  correctButtonEnabled s' = false /\
  error s' = None /\
  isLoading s' = false /\
  htmlCode s' = htmlCode (cells w) /\
  cssCode s' = cssCode (cells w).
Proof.
  intros Hrun Hpending.
  pose proof (run_requestConsistent events initial_requestConsistent Hrun) as Hreq.
  pose proof (run_bannerClear events initial_requestConsistent
                initial_bannerClear Hrun) as Hb.
  unfold requestConsistent in Hreq. unfold bannerClear in Hb.
  destruct Hreq as [[Hp _] | (_ & Hl & _ & _)]; [contradiction|].
  specialize (Hb (or_introl Hl)).
  by_cells w. subst. repeat split; reflexivity.
Qed.

Lemma review_opens_witness :
  htmlPane Examples.reviewingHi
    = CodeView.Diff [[CodeView.Removed 1 (js "<p>hi</p>");
                      CodeView.Added (js "<p>Hi</p>");
                      CodeView.Explanation (js "Capitalize")]] /\
  cssPane Examples.reviewingHi = CodeView.Diff [] /\
  reviewButtonsShown Examples.reviewingHi = true.
Proof.
  destruct (review_opens
              [HtmlChange (js "<p>hi</p>"); CssChange []; CorrectClick Examples.noon]
              (w := play [HtmlChange (js "<p>hi</p>"); CssChange [];
                          CorrectClick Examples.noon] initialSession)
              Examples.noon Examples.noon
              [Examples.capitalize] [] eq_refl ltac:(discriminate))
    as (_ & _ & Hh & Hc & Hshown & _).
  repeat split; assumption.
Defined.

(** X8: when a correction call in flight comes back unusable, fulfilled
    with an array missing or rejected with something that is not an
    [Error], nothing is stored, loading is over, the correction button is
    enabled again, and the user reads the fixed message of the case:
    "No corrections found or unexpected API response." or
    "An unknown error occurred.". *)
Theorem unusable_answer
    (events : list Event) (w : Session) (now1 now2 : jsstring)
    (r : Settled CorrectionResponse) :
  run events initialSession = Some w ->
  correctionsPending w <> 0 ->
  let s' := cells (react (CorrectCodeSettles now1 now2 r) w) in
  (forall result,
     r = Fulfilled result ->
     htmlCorrections result = None \/ cssCorrections result = None ->
     error s' = Some (js "No corrections found or unexpected API response.") /\
     logs s' =
       (js "[" ++ now2 ++ js "] Correction process finished.")
       :: (js "[" ++ now1 ++
           js "] API Warning: No corrections found or unexpected API response.")
       :: logs (cells w) /\
     htmlDiff s' = None /\ cssDiff s' = None /\
     isLoading s' = false /\ correctButtonEnabled s' = true) /\
  (r = Rejected OtherValue ->
     error s' = Some (js "An unknown error occurred.") /\
     logs s' =
       (js "[" ++ now2 ++ js "] Correction process finished.")
       :: (js "[" ++ now1 ++ js "] Error: An unknown error occurred.")
       :: logs (cells w) /\
     htmlDiff s' = None /\ cssDiff s' = None /\
     isLoading s' = false /\ correctButtonEnabled s' = true).
Proof.
  intros Hrun Hpending.
  pose proof (run_requestConsistent events initial_requestConsistent Hrun) as Hreq.
  unfold requestConsistent in Hreq.
  destruct Hreq as [[Hp _] | (_ & Hl & Hh & Hc)]; [contradiction|].
  by_cells w. subst. split.
  - intros [hs cs] -> Hmissing. simpl in Hmissing.
    destruct Hmissing as [-> | ->]; [|destruct hs];
      repeat split; reflexivity.
  - intros ->. repeat split; reflexivity.
Qed.

Lemma unusable_answer_witness :
  error (cells (react (CorrectCodeSettles Examples.noon Examples.noon
                         (Fulfilled MoreExamples.halfResponse))
                  Examples.requesting))
    = Some unexpectedResponseMessage /\
  error (cells (react (CorrectCodeSettles Examples.noon Examples.noon
                         (Rejected OtherValue))
                  Examples.requesting))
    = Some unknownErrorMessage.
Proof.
  split.
  - destruct (unusable_answer [CorrectClick Examples.noon]
                (w := Examples.requesting) Examples.noon Examples.noon
                (Fulfilled MoreExamples.halfResponse)
                eq_refl ltac:(discriminate)) as [Hhalf _].
    exact (proj1 (Hhalf _ eq_refl (or_intror eq_refl))).
  - destruct (unusable_answer [CorrectClick Examples.noon]
                (w := Examples.requesting) Examples.noon Examples.noon
                (Rejected OtherValue)
                eq_refl ltac:(discriminate)) as [_ Hother].
    exact (proj1 (Hother eq_refl)).
Defined.

End Sessions.

(** ** Requests and chat, handler by handler *)

Module Requests.
Import JsStringFacts.

(** X9: with something other than white space in a buffer,
    [handleCorrectCode] issues [correctCode] on the two current buffers,
    sets the loading flag, clears the error and both correction sequences,
    prepends the "started" log entry and leaves every other cell as it
    was. *)
Theorem request_started (now : jsstring) (s : State) :
  whitespaceOnly (htmlCode s) && whitespaceOnly (cssCode s) = false ->
  snd (handleCorrectCode_start now s)
    = Some (correctCode (htmlCode s) (cssCode s)) /\
  fst (handleCorrectCode_start now s) s =
    {| htmlCode := htmlCode s;
       cssCode := cssCode s;
       htmlDiff := None;
       cssDiff := None;
       isLoading := true;
       error := None;
       logs := (js "[" ++ now ++ js "] Correction process started...") :: logs s;
       isLogPanelExpanded := isLogPanelExpanded s;
       isPreviewPanelExpanded := isPreviewPanelExpanded s;
       isPreviewFullScreen := isPreviewFullScreen s;
       isPreviewPinned := isPreviewPinned s;
       chatQuery := chatQuery s;
       chatResponse := chatResponse s;
       isChatResponseVisible := isChatResponseVisible s;
       isChatLoading := isChatLoading s;
       dividerPosition := dividerPosition s;
       isDragging := isDragging s;
       isHtmlFocused := isHtmlFocused s;
       isCssFocused := isCssFocused s |}.
Proof.
  intros Hsome. unfold handleCorrectCode_start.
  rewrite !truthy_trim, !negb_involutive, Hsome.
  split; [reflexivity|]. destruct s; reflexivity.
Qed.

Lemma request_started_witness :
  snd (handleCorrectCode_start Examples.noon initialState)
    = Some (correctCode initialHtml initialCss) /\
  isLoading (fst (handleCorrectCode_start Examples.noon initialState) initialState)
    = true.
Proof.
  destruct (request_started Examples.noon initialState eq_refl) as [Hcall Hcells].
  split; [exact Hcall|]. rewrite Hcells. reflexivity.
Defined.

(** X10: [handleCorrectCode] itself does not look at the loading flag:
    invoked again while its request is loading it issues the same call a
    second time, so that two calls are in flight; only the disabled button
    keeps requests apart. *)
Theorem request_not_guarded_by_handler (now1 now2 : jsstring) (s : State) :
  whitespaceOnly (htmlCode s) && whitespaceOnly (cssCode s) = false ->
  isLoading (fst (handleCorrectCode_start now1 s) s) = true /\
  snd (handleCorrectCode_start now2 (fst (handleCorrectCode_start now1 s) s))
    = Some (correctCode (htmlCode s) (cssCode s)) /\
  correctionsPending
    (play [CorrectClick now1; CorrectClick now2] (mkSession s 0 0)) = 2.
Proof.
  intros Hsome.
  assert (Hstart : forall now t,
             htmlCode t = htmlCode s -> cssCode t = cssCode s ->
             handleCorrectCode_start now t
             = (addLog now (js "Correction process started...") ;;
                setIsLoading true ;; setError None ;;
                setHtmlDiff None ;; setCssDiff None,
                Some (correctCode (htmlCode s) (cssCode s)))).
  { intros now t Hh Hc. unfold handleCorrectCode_start.
    rewrite Hh, Hc, !truthy_trim, !negb_involutive, Hsome. reflexivity. }
  assert (Hkept : forall now,
             htmlCode (fst (handleCorrectCode_start now s) s) = htmlCode s /\
             cssCode (fst (handleCorrectCode_start now s) s) = cssCode s /\
             isLoading (fst (handleCorrectCode_start now s) s) = true).
  { intros now. rewrite (Hstart now s eq_refl eq_refl).
    destruct s; repeat split; reflexivity. }
  destruct (Hkept now1) as (Hh & Hc & Hl).
  split; [exact Hl|]. split.
  - rewrite (Hstart now2 _ Hh Hc). reflexivity.
  - change (play [CorrectClick now1; CorrectClick now2] (mkSession s 0 0))
      with (react (CorrectClick now2) (react (CorrectClick now1) (mkSession s 0 0))).
    unfold react. cbn [cells correctionsPending chatsPending].
    rewrite (Hstart now1 s eq_refl eq_refl) in *.
    cbn [cells correctionsPending chatsPending fst].
    cbn [fst] in Hh, Hc.
    rewrite (Hstart now2 _ Hh Hc). reflexivity.
Qed.

Lemma request_not_guarded_by_handler_witness :
  correctionsPending
    (play [CorrectClick Examples.noon; CorrectClick Examples.noon]
       (mkSession initialState 0 0)) = 2.
Proof.
  exact (proj2 (proj2 (request_not_guarded_by_handler
                         Examples.noon Examples.noon initialState eq_refl))).
Defined.

(** X11, on a concrete session: the request is made on the initial
    buffers, the user chats and pins the preview while it is out, and
    drops the review. *)
Lemma editAgain_in_session_witness :
  htmlCode
    (cells (play (CorrectClick Examples.noon
                    :: Examples.reviewedMeanwhile
                    ++ [EditAgainClick Examples.noon]) initialSession))
    = initialHtml /\
  cssCode
    (cells (play (CorrectClick Examples.noon
                    :: Examples.reviewedMeanwhile
                    ++ [EditAgainClick Examples.noon]) initialSession))
    = initialCss.
Proof.
  destruct (CorrectionWorkflow.editAgain_in_session
              [] Examples.reviewedMeanwhile Examples.noon Examples.noon
              (w0 := initialSession)
              (w' := play (CorrectClick Examples.noon
                             :: Examples.reviewedMeanwhile
                             ++ [EditAgainClick Examples.noon]) initialSession)
              eq_refl eq_refl ltac:(vm_compute; reflexivity))
    as (Hh & Hc & _).
  split; assumption.
Defined.

(** X12: a chat submission that passes the guard issues
    [getChatResponse] on the two buffers and the query, shows the popup
    with an empty response, sets the chat loading flag and prepends its
    log entry.  Whenever the call settles, on whatever state [t] the
    session is in by then, the response becomes the answer, or
    "**Error:** " followed by the error's message or by the fixed text for
    a non-[Error]; loading is over, the query is emptied, one log entry is
    prepended to the log as it then is, and the popup is left as it then
    is.  If the call settles with nothing in between, the popup is
    therefore shown and the two entries of the exchange are on top of the
    log the submission found. *)
Theorem chat_round_trip
    (now1 now2 : jsstring) (s t : State) (r : Settled jsstring) :
  whitespaceOnly (chatQuery s) = false ->
  isChatLoading s = false ->
  let pending := fst (submitChat now1 s) in
  let response :=
    match r with
    | Fulfilled answer => answer
    | Rejected (ErrorInstance message) => js "**Error:** " ++ message
    | Rejected OtherValue => js "**Error:** An unknown chat error occurred."
    end in
  let entry :=
    js "[" ++ now2 ++
    match r with
    | Fulfilled _ => js "] Chat response received."
    | Rejected (ErrorInstance message) => js "] Chat Error: " ++ message
    | Rejected OtherValue => js "] Chat Error: An unknown chat error occurred."
    end in
  (snd (submitChat now1 s)
     = Some (getChatResponse (htmlCode s) (cssCode s) (chatQuery s)) /\
   isChatLoading pending = true /\
   chatResponse pending = [] /\
   isChatResponseVisible pending = true /\
   logs pending
     = (js "[" ++ now1 ++ js "] Chat query submitted: " ++ quote
          ++ chatQuery s ++ quote)
       :: logs s) /\
  (chatResponse (handleChatSubmit_settled now2 r t) = response /\
   isChatLoading (handleChatSubmit_settled now2 r t) = false /\
   chatQuery (handleChatSubmit_settled now2 r t) = [] /\
   isChatResponseVisible (handleChatSubmit_settled now2 r t)
     = isChatResponseVisible t /\
   logs (handleChatSubmit_settled now2 r t) = entry :: logs t) /\
  (isChatResponseVisible (handleChatSubmit_settled now2 r pending) = true /\
   logs (handleChatSubmit_settled now2 r pending)
     = entry
       :: (js "[" ++ now1 ++ js "] Chat query submitted: " ++ quote
             ++ chatQuery s ++ quote)
       :: logs s).
Proof.
  intros Hquery Hidle. unfold submitChat, handleChatSubmit_start.
  rewrite truthy_trim, Hquery, Hidle. simpl.
  destruct s, t, r as [answer|[message|]]; simpl; repeat split; reflexivity.
Qed.

Lemma chat_round_trip_witness :
  chatResponse
    (handleChatSubmit_settled Examples.noon (Rejected Examples.failure)
       (fst (submitChat Examples.noon MoreExamples.asking)))
    = js "**Error:** Failed to correct code: quota exceeded" /\
  chatQuery
    (handleChatSubmit_settled Examples.noon (Rejected Examples.failure)
       (fst (submitChat Examples.noon MoreExamples.asking))) = [] /\
  isChatResponseVisible
    (handleChatSubmit_settled Examples.noon (Rejected Examples.failure)
       (fst (submitChat Examples.noon MoreExamples.asking))) = true.
Proof.
  destruct (chat_round_trip Examples.noon Examples.noon MoreExamples.asking
              (fst (submitChat Examples.noon MoreExamples.asking))
              (Rejected Examples.failure) eq_refl eq_refl)
    as (_ & (Hresponse & _ & Hquery & _) & (Hshown & _)).
  repeat split; assumption.
Defined.

(** The answer arrives after the popup was closed and a correction was
    requested: it is stored, the popup stays closed and the correction's
    entry sits between the two entries of the exchange. *)
Example answer_arrives_late :
  exists w,
    run MoreExamples.answeredLate initialSession = Some w /\
    chatResponse (cells w) = js "Because." /\
    isChatResponseVisible (cells w) = false /\
    nth_error (logs (cells w)) 1
      = Some (js "[12:00:00 PM] Correction process started...").
Proof.
  eexists. split; [vm_compute; reflexivity|]. repeat split; reflexivity.
Qed.

(** X13: the send button of the chat bar is disabled exactly when
    [handleChatSubmit] would return without doing anything. *)
Theorem send_disabled_iff_noop (now : jsstring) (s : State) :
  sendDisabled s
    = match snd (submitChat now s) with
      | Some _ => false
      | None => true
      end.
Proof.
  unfold sendDisabled, ChatBar.sendDisabled, submitChat, handleChatSubmit_start.
  rewrite orb_comm.
  destruct (negb (truthy (trim (chatQuery s))) || isChatLoading s); reflexivity.
Qed.

End Requests.

(** ** The chat bar's word count and glow *)

Module ChatBarFacts.
Import JsStringFacts JsNumber JsNumberFacts ChatBar.

Lemma trimStart_snoc (l : jsstring) (c : CodeUnit) :
  isWhiteSpace c = false -> trimStart (l ++ [c]) = trimStart l ++ [c].
Proof.
  intros Hc. induction l as [|d l IH]; simpl.
  - rewrite Hc. reflexivity.
  - destruct (isWhiteSpace d); [exact IH | reflexivity].
Qed.

(** A trimmed string does not start with white space. *)
Lemma trim_head (s : jsstring) (c : CodeUnit) (rest : jsstring) :
  trim s = c :: rest -> isWhiteSpace c = false.
Proof.
  unfold trim, trimEnd.
  destruct (trimStart s) as [|c0 r0] eqn:Hs; [discriminate|].
  pose proof (trimStart_head s Hs) as Hc0.
  simpl rev. rewrite (trimStart_snoc (rev r0) c0 Hc0), rev_app_distr. simpl.
  intros H. injection H as <- _. exact Hc0.
Qed.

(** A piece is read from the first unit that is not white space. *)
Lemma split_finds_word (s : jsstring) :
  (forall word,
     word <> [] \/ whitespaceOnly s = false ->
     0 < List.length (filter truthy (splitWhiteSpace false s word))) /\
  (whitespaceOnly s = false ->
   0 < List.length (filter truthy (splitWhiteSpace true s []))).
Proof.
  unfold whitespaceOnly.
  induction s as [|c rest [IHword IHsep]]; simpl.
  - split.
    + intros word [Hword | H]; [|discriminate].
      destruct word; [contradiction | simpl; lia].
    + discriminate.
  - destruct (isWhiteSpace c) eqn:Hc; simpl.
    + split.
      * intros word [Hword | Hrest].
        -- destruct word; [contradiction | simpl; lia].
        -- specialize (IHsep Hrest). destruct (truthy word); simpl; lia.
      * exact IHsep.
    + split.
      * intros word _. apply IHword. left. destruct word; discriminate.
      * intros _. apply IHword. left. discriminate.
Qed.

Lemma wordCount_blank (query : jsstring) :
  wordCount query = 0 <-> whitespaceOnly query = true.
Proof.
  unfold wordCount. split.
  - intros Hzero.
    destruct (whitespaceOnly query) eqn:Hq; [reflexivity|].
    pose proof (truthy_trim query) as Ht. rewrite Hq in Ht. simpl in Ht.
    destruct (trim query) as [|c rest] eqn:Htrim; [discriminate|].
    pose proof (trim_head query Htrim) as Hc.
    destruct (split_finds_word (c :: rest)) as [Hword _].
    assert (Hfound : 0 < List.length
                        (filter truthy (splitWhiteSpace false (c :: rest) []))).
    { apply Hword. right. unfold whitespaceOnly. simpl. rewrite Hc. reflexivity. }
    lia.
  - intros Hq. pose proof (truthy_trim query) as Ht. rewrite Hq in Ht.
    destruct (trim query); [reflexivity | discriminate].
Qed.

(** X14: the chat bar counts no word exactly for an empty or
    whitespace-only query; an idle send button is enabled exactly when
    there is at least one word, and without a word the glow is the base
    one, spread 2 and blur 8. *)
Theorem no_word_no_glow (query : jsstring) :
  (wordCount query = 0 <-> whitespaceOnly query = true) /\
  sendDisabled query false = Nat.eqb (wordCount query) 0 /\
  (whitespaceOnly query = true ->
   spread query = ofZ 2 /\ blur query = ofZ 8).
Proof.
  split; [apply wordCount_blank|]. split.
  - unfold sendDisabled. rewrite truthy_trim, negb_involutive. simpl.
    destruct (whitespaceOnly query) eqn:Hq.
    + apply wordCount_blank in Hq. rewrite Hq. reflexivity.
    + destruct (wordCount query) eqn:Hn; [|reflexivity].
      apply wordCount_blank in Hn. congruence.
  - intros Hq. apply wordCount_blank in Hq.
    unfold spread, blur. rewrite Hq. split; vm_compute; reflexivity.
Qed.

Lemma no_word_no_glow_witness :
  wordCount (js "  " ++ newline) = 0 /\
  spread (js "  " ++ newline) = ofZ 2 /\
  blur (js "  " ++ newline) = ofZ 8.
Proof.
  destruct (no_word_no_glow (js "  " ++ newline)) as (Hcount & _ & Hglow).
  split; [exact (proj2 Hcount eq_refl) | exact (Hglow eq_refl)].
Defined.

Lemma add_number (s : bool) (m : positive) (e : Z) (y : number) :
  isNaN y = false -> isNaN (add (S754_finite s m e) y) = false.
Proof.
  destruct y as [sy|sy| |sy my ey]; try discriminate; intros _;
    try reflexivity.
  unfold add, SFadd. apply binary_normalize_number.
Qed.

Lemma Math_min_capped (x hi : number) :
  isNaN x = false ->
  SFcompare hi hi = Some Eq ->
  isNaN (Math_min x hi) = false /\ SFleb (Math_min x hi) hi = true.
Proof.
  intros Hx Hhi.
  assert (Hnum : isNaN hi = false) by (destruct hi; try reflexivity; discriminate).
  unfold Math_min, SFleb.
  destruct (SFcompare x hi) as [[| |]|] eqn:Hc.
  - destruct x as [[|]| | |]; rewrite ?Hc, ?Hhi; auto.
  - rewrite Hc. auto.
  - rewrite Hhi. auto.
  - apply SFcompare_unordered in Hc. destruct Hc; congruence.
Qed.

(** X15: whatever is typed, the glow is capped: the spread is a number
    not above 15 and the blur a number not above 30. *)
Theorem glow_capped (query : jsstring) :
  (isNaN (spread query) = false /\ SFleb (spread query) (ofZ 15) = true) /\
  (isNaN (blur query) = false /\ SFleb (blur query) (ofZ 30) = true).
Proof.
  unfold spread, blur.
  set (n := ofZ (Z.of_nat (wordCount query))).
  assert (Hn : isNaN n = false) by apply binary_normalize_number.
  split; apply Math_min_capped; try reflexivity.
  - change baseSpread with (S754_finite false 4503599627370496 (-51)).
    apply add_number.
    change oneAndHalf with (S754_finite false 6755399441055744 (-52)).
    apply mul_number, Hn.
  - change baseBlur with (S754_finite false 4503599627370496 (-49)).
    apply add_number.
    change (ofZ 2) with (S754_finite false 4503599627370496 (-51)).
    apply mul_number, Hn.
Qed.

End ChatBarFacts.

(** ** Dragging the divider *)

Module Dragging.
Import JsNumber JsNumberFacts CorrectionWorkflow Resizer.

(** X16, at the two ends: the collapsed container and an ordinary one. *)
Lemma pointer_move_bounds_iff_witness :
  splitInBounds (dividerPosition Examples.movedOverCollapsed) = false /\
  splitInBounds
    (dividerPosition
       (dispatch (handleMouseMove (ofZ 300) (Some Examples.thousandWide))
          Examples.dragging)) = true.
Proof.
  split.
  - exact (pointer_move_bounds_iff (ofZ 72) Examples.collapsed Examples.dragging
             eq_refl eq_refl eq_refl eq_refl).
  - exact (pointer_move_bounds_iff (ofZ 300) Examples.thousandWide Examples.dragging
             eq_refl eq_refl eq_refl eq_refl).
Defined.

Lemma react_keeps_divider (e : Event) (w : Session) :
  isPointerMove e = false ->
  dividerPosition (cells (react e w)) = dividerPosition (cells w).
Proof.
  intros He.
  destruct e; try (by_cells w; reflexivity).
  - unfold react, handleCorrectCode_start.
    destruct (negb (truthy (trim (htmlCode (cells w))))
              && negb (truthy (trim (cssCode (cells w)))));
      by_cells w; reflexivity.
  - by_cells w. destruct r as [[[h|] [c|]]|[message|]]; reflexivity.
  - unfold react, handleChatSubmit_start.
    destruct (negb (truthy (trim (chatQuery (cells w)))) || isChatLoading (cells w));
      by_cells w; reflexivity.
  - by_cells w. destruct r as [response|[message|]]; reflexivity.
  - by_cells w. destruct htmlDiff0, cssDiff0; reflexivity.
  - destruct current; [discriminate He|]. by_cells w. reflexivity.
  - unfold react, dispatch, handleTogglePinPreview.
    destruct (isPreviewPinned (cells w)); by_cells w; reflexivity.
  - unfold react, handleTogglePreviewFullScreen.
    destruct (isPreviewFullScreen (cells w)); by_cells w; reflexivity.
Qed.

Lemma react_in_bounds (e : Event) (w : Session) :
  numericMove e = true ->
  splitInBounds (dividerPosition (cells w)) = true ->
  splitInBounds (dividerPosition (cells (react e w))) = true.
Proof.
  intros He Hw.
  destruct (isPointerMove e) eqn:Hmove.
  - destruct e; try discriminate Hmove.
    destruct current as [rect|]; [|discriminate Hmove].
    change (cells (react (DocumentMouseMove clientX (Some rect)) w))
      with (dispatch (handleMouseMove clientX (Some rect)) (cells w)).
    destruct (isDragging (cells w)) eqn:Hdrag.
    + simpl in He.
      apply andb_prop in He. destruct He as [He Hnz].
      apply andb_prop in He. destruct He as [He Hwd].
      apply andb_prop in He. destruct He as [Hx Hl].
      apply pointer_move_in_bounds; [exact Hdrag|].
      rewrite (percentage_isNaN _ _ _ Hx Hl Hwd).
      apply negb_true_iff, Hnz.
    + rewrite pointer_move_unarmed; [exact Hw | left; exact Hdrag].
  - rewrite (react_keeps_divider e w Hmove). exact Hw.
Qed.

(** X17: from the initial split of 50, through any sequence of handler
    invocations, the split position stays within [15, 85] as long as every
    pointer move has finite coordinates and is not a zero offset over a
    zero-width container. *)
Theorem divider_stays_in_bounds (events : list Event) :
  forallb numericMove events = true ->
  splitInBounds (dividerPosition (cells (play events initialSession))) = true.
Proof.
  generalize initialSession,
    (eq_refl : splitInBounds (dividerPosition (cells initialSession)) = true).
  induction events as [|e rest IH]; simpl; intros w Hw Hall.
  - exact Hw.
  - apply andb_prop in Hall. destruct Hall as [He Hrest].
    exact (IH (react e w) (react_in_bounds e w He Hw) Hrest).
Qed.

Lemma divider_stays_in_bounds_witness :
  splitInBounds
    (dividerPosition (cells (play MoreExamples.busyEvents initialSession))) = true.
Proof.
  exact (divider_stays_in_bounds MoreExamples.busyEvents eq_refl).
Defined.

(** X18: the split position changes only through a pointer move that
    arrives during an armed drag with the container mounted; no other
    handler, and no move outside a drag, touches it. *)
Theorem divider_moves_only_in_drag (e : Event) (w : Session) :
  dividerPosition (cells (react e w)) <> dividerPosition (cells w) ->
  isPointerMove e = true /\ isDragging (cells w) = true.
Proof.
  intros Hmoved.
  destruct (isPointerMove e) eqn:Hmove.
  - split; [reflexivity|].
    destruct e; try discriminate Hmove.
    destruct current as [rect|]; [|discriminate Hmove].
    destruct (isDragging (cells w)) eqn:Hdrag; [reflexivity|].
    exfalso. apply Hmoved.
    change (cells (react (DocumentMouseMove clientX (Some rect)) w))
      with (dispatch (handleMouseMove clientX (Some rect)) (cells w)).
    rewrite pointer_move_unarmed; [reflexivity | left; exact Hdrag].
  - exfalso. apply Hmoved. apply react_keeps_divider, Hmove.
Qed.

Lemma divider_moves_only_in_drag_witness :
  isDragging Examples.dragging = true /\
  dividerPosition Examples.movedToZero <> dividerPosition Examples.dragging.
Proof.
  assert (Hmoved : dividerPosition
                     (cells (react (DocumentMouseMove (ofZ 0) (Some Examples.thousandWide))
                               (mkSession Examples.dragging 0 0)))
                   <> dividerPosition (cells (mkSession Examples.dragging 0 0)))
    by (vm_compute; discriminate).
  split; [exact (proj2 (divider_moves_only_in_drag _ _ Hmoved)) | exact Hmoved].
Defined.

End Dragging.

(** ** Pinning and full screen *)

Module Panels.

(** X19: toggling the pin twice, or full screen twice, gives back the
    state it started from except that the hover expansion is off: one of
    the two toggles is an unpin, or an exit, and clears it. *)
Theorem double_toggle (s : State) :
  dispatch handleTogglePinPreview (dispatch handleTogglePinPreview s)
    = setIsPreviewPanelExpanded false s /\
  handleTogglePreviewFullScreen (handleTogglePreviewFullScreen s)
    = setIsPreviewPanelExpanded false s.
Proof.
  unfold dispatch, handleTogglePinPreview, handleTogglePreviewFullScreen.
  destruct s. simpl.
  destruct isPreviewPinned0, isPreviewFullScreen0; split; reflexivity.
Qed.

(** X20: a click on the pin leaves the preview effectively expanded
    exactly if it was not pinned before: pinning opens it, unpinning
    collapses it at once even under the pointer; leaving full screen
    leaves it expanded exactly if it is pinned. *)
Theorem toggles_decide_expansion (s : State) :
  isPreviewEffectivelyExpanded (dispatch handleTogglePinPreview s)
    = negb (isPreviewPinned s) /\
  (isPreviewFullScreen s = true ->
   isPreviewEffectivelyExpanded (handleTogglePreviewFullScreen s)
     = isPreviewPinned s).
Proof.
  unfold dispatch, handleTogglePinPreview, handleTogglePreviewFullScreen,
    isPreviewEffectivelyExpanded.
  destruct s. simpl. split.
  - destruct isPreviewPinned0; simpl; [reflexivity | apply orb_true_r].
  - intros ->. reflexivity.
Qed.

Lemma toggles_decide_expansion_witness :
  isPreviewEffectivelyExpanded
    (handleTogglePreviewFullScreen Examples.previewOpen) = true /\
  isPreviewEffectivelyExpanded
    (dispatch handleTogglePinPreview Examples.previewOpen) = false.
Proof.
  destruct (toggles_decide_expansion Examples.previewOpen) as [Hpin Hexit].
  split; [exact (Hexit eq_refl) | exact Hpin].
Defined.

End Panels.

(** ** The diff view and what "accept" writes *)

Module DiffView.
Import CodeView.

Lemma eqb_eq (a b : jsstring) : JsString.eqb a b = true -> a = b.
Proof.
  revert b. induction a as [|x a IH]; intros [|y b]; simpl;
    try discriminate; [reflexivity|].
  intros H. apply andb_prop in H. destruct H as [Hxy Hrest].
  apply N.eqb_eq in Hxy. rewrite Hxy, (IH b Hrest). reflexivity.
Qed.

Lemma keptTexts_DiffLine (diff : list Correction) :
  flagsEveryChange diff = true ->
  keptTexts (List.concat (map DiffLine diff)) = map corrected diff.
Proof.
  unfold flagsEveryChange.
  induction diff as [|line rest IH]; simpl; [reflexivity|].
  intros H. apply andb_prop in H. destruct H as [Hline Hrest].
  unfold DiffLine at 1. destruct (isError line); simpl in *.
  - rewrite (IH Hrest). reflexivity.
  - rewrite (IH Hrest), (eqb_eq _ _ Hline). reflexivity.
Qed.

(** X21: the diff view shows [original] for a line that is not flagged
    [isError], while "accept" writes [corrected] for every line; when
    every entry that changes its line is flagged, what the two diff views
    present as the corrected files is exactly what "accept" writes into
    the two buffers. *)
Theorem accept_writes_what_diff_shows
    (now : jsstring) (s : State) (h c : list Correction) :
  htmlDiff s = Some h ->
  cssDiff s = Some c ->
  flagsEveryChange h = true ->
  flagsEveryChange c = true ->
  shownResult (htmlPane s)
    = Some (htmlCode (dispatch (handleAcceptCorrection now) s)) /\
  shownResult (cssPane s)
    = Some (cssCode (dispatch (handleAcceptCorrection now) s)).
Proof.
  intros Hh Hc Hfh Hfc.
  unfold htmlPane, cssPane, CodeView, dispatch, handleAcceptCorrection.
  rewrite Hh, Hc. simpl shownResult.
  rewrite (keptTexts_DiffLine h Hfh), (keptTexts_DiffLine c Hfc).
  destruct s; split; reflexivity.
Qed.

Lemma accept_writes_what_diff_shows_witness :
  shownResult (htmlPane Examples.reviewingHi) = Some (js "<p>Hi</p>") /\
  shownResult (cssPane Examples.reviewingHi) = Some [].
Proof.
  exact (accept_writes_what_diff_shows Examples.noon Examples.reviewingHi
           (h := [Examples.capitalize]) (c := [])
           eq_refl eq_refl eq_refl eq_refl).
Defined.

(** An entry that changes its line without flagging it is shown as the
    old line and accepted as the new one. *)
Example silent_change_not_shown :
  let s := (setHtmlDiff (Some [MoreExamples.silent]) ;; setCssDiff (Some []))%update
             initialState in
  shownResult (htmlPane s) = Some (js "<p>hi</p>") /\
  htmlCode (dispatch (handleAcceptCorrection Examples.noon) s) = js "<p>bye</p>".
Proof. split; reflexivity. Qed.

End DiffView.

(** ** The service behind the two workflows *)

Module Service.
Import geminiService.

(** X22: [correctCode] hands the application one of two things only: a
    response with both arrays, or an [Error] whose message is the missing
    key notice, "Failed to correct code: " followed by the cause, or the
    fixed text for a cause that is not an [Error].  Wired to it,
    [handleCorrectCode] therefore either opens the review or shows that
    message; its own branches for a missing array and for a rejection
    that is not an [Error] are never taken. *)
Theorem correctCode_outcomes
    (API_KEY : option jsstring) (parsedJson : Settled Parsed)
    (now1 now2 : jsstring) (s : State) :
  let s' := handleCorrectCode_settled now1 now2 (correctCode API_KEY parsedJson) s in
  (exists h c,
     correctCode API_KEY parsedJson
       = Fulfilled {| htmlCorrections := Some h; cssCorrections := Some c |} /\
     htmlDiff s' = Some h /\ cssDiff s' = Some c /\ error s' = error s) \/
  (exists message,
     correctCode API_KEY parsedJson = Rejected (ErrorInstance message) /\
     (message = js "API_KEY environment variable not set" \/
      message = js "An unknown error occurred while correcting code." \/
      exists cause, message = js "Failed to correct code: " ++ cause) /\
     error s' = Some message /\
     htmlDiff s' = htmlDiff s /\ cssDiff s' = cssDiff s).
Proof.
  unfold correctCode.
  destruct (apiKeyMissing API_KEY).
  - right. eexists. split; [reflexivity|].
    split; [left; reflexivity|]. destruct s; repeat split; reflexivity.
  - destruct parsedJson as [[|[h|] [c|]]|[cause|]].
    2: { left. exists h, c. destruct s; repeat split; reflexivity. }
    all: right; eexists; (split; [reflexivity|]);
      (split; [first [ right; left; reflexivity
                     | right; right; eexists; reflexivity ]|]);
      destruct s; repeat split; reflexivity.
Qed.

(** X23: without an API key (unset or empty) neither function reaches the
    API: both reject with "API_KEY environment variable not set", whatever
    the API would have answered, and the notice is not wrapped like other
    failures; the application shows it as it is in the error banner, and
    after "**Error:** " in the chat popup. *)
Theorem missing_key_notice
    (API_KEY : option jsstring) (parsedJson : Settled Parsed)
    (text : Settled jsstring) (now1 now2 : jsstring) (s : State) :
  apiKeyMissing API_KEY = true ->
  correctCode API_KEY parsedJson
    = Rejected (ErrorInstance (js "API_KEY environment variable not set")) /\
  getChatResponse API_KEY text
    = Rejected (ErrorInstance (js "API_KEY environment variable not set")) /\
  error (handleCorrectCode_settled now1 now2 (correctCode API_KEY parsedJson) s)
    = Some (js "API_KEY environment variable not set") /\
  chatResponse (handleChatSubmit_settled now1 (getChatResponse API_KEY text) s)
    = js "**Error:** API_KEY environment variable not set".
Proof.
  intros Hmissing. unfold correctCode, getChatResponse. rewrite Hmissing.
  destruct s; repeat split; reflexivity.
Qed.

Lemma missing_key_notice_witness :
  correctCode (Some [])
    (Fulfilled (Truthy (IsArray [Examples.capitalize]) (IsArray [])))
    = Rejected (ErrorInstance apiKeyMessage) /\
  getChatResponse None (Fulfilled (js "Because."))
    = Rejected (ErrorInstance apiKeyMessage).
Proof.
  split.
  - exact (proj1 (missing_key_notice (Some [])
                    (Fulfilled (Truthy (IsArray [Examples.capitalize]) (IsArray [])))
                    (Fulfilled (js "Because.")) Examples.noon Examples.noon
                    initialState eq_refl)).
  - exact (proj1 (proj2 (missing_key_notice None
                    (Fulfilled (Truthy (IsArray [Examples.capitalize]) (IsArray [])))
                    (Fulfilled (js "Because.")) Examples.noon Examples.noon
                    initialState eq_refl))).
Defined.

(** X24: wired to [getChatResponse], the chat popup ends up with the
    answer, or with "**Error:** " followed by the missing key notice,
    by "Failed to get chat response: " and the cause, or by the service's
    fixed text; [handleChatSubmit]'s own text for a rejection that is not
    an [Error] is never used. *)
Theorem getChatResponse_outcomes
    (API_KEY : option jsstring) (text : Settled jsstring)
    (now : jsstring) (s : State) :
  let s' := handleChatSubmit_settled now (getChatResponse API_KEY text) s in
  (exists answer,
     apiKeyMissing API_KEY = false /\ text = Fulfilled answer /\
     chatResponse s' = answer) \/
  (exists message,
     getChatResponse API_KEY text = Rejected (ErrorInstance message) /\
     (message = js "API_KEY environment variable not set" \/
      message = js "An unknown error occurred during chat." \/
      exists cause, message = js "Failed to get chat response: " ++ cause) /\
     chatResponse s' = js "**Error:** " ++ message).
Proof.
  unfold getChatResponse.
  destruct (apiKeyMissing API_KEY).
  - right. eexists. split; [reflexivity|].
    split; [left; reflexivity|]. destruct s; reflexivity.
  - destruct text as [answer|[cause|]].
    + left. exists answer. destruct s; repeat split; reflexivity.
    + right. eexists. split; [reflexivity|].
      split; [right; right; eexists; reflexivity|]. destruct s; reflexivity.
    + right. eexists. split; [reflexivity|].
      split; [right; left; reflexivity|]. destruct s; reflexivity.
Qed.

End Service.

(** ** Back to editing, and the chat left alone *)

Module Editing.
Import JsStringFacts CorrectionWorkflow.

(** X25: accepting a review in a session brings the editor back: both
    panes are enabled textareas holding the newline joins of the corrected
    lines, the correction button is enabled, no review is left and no error
    is on display. *)
Theorem accept_returns_to_editing
    (events : list Event) (w : Session) (now : jsstring) :
  run events initialSession = Some w ->
  reviewButtonsShown (cells w) = true ->
  exists h c,
    htmlDiff (cells w) = Some h /\
    cssDiff (cells w) = Some c /\
    let s' := cells (react (AcceptClick now) w) in
    htmlPane s'
      = CodeView.Textarea (join newline (map corrected h)) (js "HTML CODE") false /\
    cssPane s'
      = CodeView.Textarea (join newline (map corrected c)) (js "CSS CODE") false /\
    correctButtonEnabled s' = true /\
    reviewButtonsShown s' = false /\
    error s' = None.
Proof.
  intros Hrun Hshown.
  pose proof (Sessions.run_bannerClear events initial_requestConsistent
                Sessions.initial_bannerClear Hrun) as Hb.
  unfold bannerClear in Hb. unfold reviewButtonsShown in Hshown.
  apply andb_prop in Hshown. destruct Hshown as [Hboth Hl].
  specialize (Hb (or_intror Hboth)).
  apply negb_true_iff in Hl.
  by_cells w. subst.
  destruct htmlDiff0 as [h|], cssDiff0 as [c|]; try discriminate Hboth.
  exists h, c. repeat split; reflexivity.
Qed.

Lemma accept_returns_to_editing_witness :
  htmlPane (cells (react (AcceptClick Examples.noon) MoreExamples.reviewing))
    = CodeView.Textarea (js "<p>Hi</p>") (js "HTML CODE") false /\
  cssPane (cells (react (AcceptClick Examples.noon) MoreExamples.reviewing))
    = CodeView.Textarea [] (js "CSS CODE") false.
Proof.
  destruct (accept_returns_to_editing Examples.hiEvents
              (w := MoreExamples.reviewing) Examples.noon eq_refl eq_refl)
    as (h & c & Hh & Hc & Hhtml & Hcss & _).
  injection Hh as <-. injection Hc as <-.
  split; [exact Hhtml | exact Hcss].
Defined.

(** X26: the correction workflow never writes a cell of the chat: a
    request, its settlement of any kind, "accept" and "edit again" leave
    the query, the stored response, the popup visibility and the chat
    loading flag as they were. *)
Theorem correction_leaves_chat_alone
    (now1 now2 : jsstring) (r : Settled CorrectionResponse) (s : State) :
  let chat (t : State) :=
    (chatQuery t, chatResponse t, isChatResponseVisible t, isChatLoading t) in
  chat (fst (handleCorrectCode_start now1 s) s) = chat s /\
  chat (handleCorrectCode_settled now1 now2 r s) = chat s /\
  chat (dispatch (handleAcceptCorrection now1) s) = chat s /\
  chat (handleEditAgain now1 s) = chat s.
Proof.
  unfold handleCorrectCode_start, dispatch, handleAcceptCorrection.
  destruct (negb (truthy (trim (htmlCode s))) && negb (truthy (trim (cssCode s))));
    destruct s, r as [[[h|] [c|]]|[message|]]; simpl;
    destruct htmlDiff0, cssDiff0; repeat split; reflexivity.
Qed.

End Editing.
